(** * ServerAutoShutdown: recurring shutdown scheduling

    A shallow embedding of [src/ServerAutoShutdown.cpp] (AzerothCore module
    [mod-server-auto-shutdown]) and the properties of its next-occurrence
    calculator, plan computation and initialisation sequence.

    Conventions.
    - [time_t] values are integers ([Z], seconds since the epoch).  The
      fixed-width unsigned locals of [Init] ([uint32], [uint64]) are [Z]
      values reduced by [to_u32] / [to_u64] at every operation the source
      performs on them.
    - Local time is UTC shifted by [gmtoff] seconds, the offset in force
      at now: [TimeBreakdown] is [localtime_r] at a timestamp where that
      offset is in force, and [mktime] resolves the struct built from
      now's broken-down time (it carries now's [tm_isdst]) with that same
      offset.  In a zone whose offset changes (daylight saving), a result
      is read back with the offset in force at the result, written
      [TimeBreakdown (offset_at r) r] for the zone's offsets [offset_at].
    - Calls into the host (scheduler, world, game events, log) are recorded
      in an explicit [World] state. *)

From Stdlib Require Import ZArith Lia List Bool String Ascii.
Import ListNotations.
Open Scope Z_scope.

(* ------------------------------------------------------------------------- *)
(** ** Fixed-width integers *)

Definition to_u8 (z : Z) : Z := z mod 2 ^ 8.
Definition to_u32 (z : Z) : Z := z mod 2 ^ 32.
Definition to_u64 (z : Z) : Z := z mod 2 ^ 64.

(** A 64-bit pattern read as a signed count: the [Seconds] of the host. *)
Definition to_i64 (z : Z) : Z := (z + 2 ^ 63) mod 2 ^ 64 - 2 ^ 63.

(** Time constants of the host's [Common.h]; they have type [int]. *)
Definition MINUTE : Z := 60.
Definition HOUR : Z := MINUTE * 60.
Definition DAY : Z := HOUR * 24.
Definition WEEK : Z := DAY * 7.

(* ------------------------------------------------------------------------- *)
(** ** The civil calendar behind [localtime_r] and [mktime] *)

Module Calendar.

(** Days are counted from 1970-01-01.  An era is a 400-year cycle of
    146097 days that starts on a 1st of March; it splits into centuries of
    36524 days (the last one a day longer), those into 4-year groups of
    1461 days, those into years of 365 days (the last one a day longer). *)

Definition year_of_era (doe : Z) : Z :=
  let c := Z.min (doe / 36524) 3 in
  let r := doe - c * 36524 in
  let q := r / 1461 in
  let r4 := r - q * 1461 in
  let y := Z.min (r4 / 365) 3 in
  c * 100 + q * 4 + y.

Definition day_of_year (doe yoe : Z) : Z :=
  doe - (365 * yoe + yoe / 4 - yoe / 100).

(** Month counted from March (0) to February (11). *)
Definition month_from_march (doy : Z) : Z := (5 * doy + 2) / 153.

Definition civil_month (mp : Z) : Z := if mp <? 10 then mp + 3 else mp - 9.

Definition march_month (m : Z) : Z := if 2 <? m then m - 3 else m + 9.

(** Day number to (year, month 1..12, day 1..31). *)
Definition civil_from_days (z : Z) : Z * Z * Z :=
  let z := z + 719468 in
  let era := z / 146097 in
  let doe := z mod 146097 in
  let yoe := year_of_era doe in
  let doy := day_of_year doe yoe in
  let mp := month_from_march doy in
  let d := doy - (153 * mp + 2) / 5 + 1 in
  let m := civil_month mp in
  (yoe + era * 400 + (if m <=? 2 then 1 else 0), m, d).

(** (year, month 1..12, day) to day number.  The day enters linearly, so a
    day of the month past the month's end denotes the matching day of a
    later month, which is how [mktime] normalises [tm_mday]. *)
Definition days_from_civil (y m d : Z) : Z :=
  let y := if m <=? 2 then y - 1 else y in
  let era := y / 400 in
  let yoe := y mod 400 in
  let doy := (153 * march_month m + 2) / 5 + d - 1 in
  let doe := yoe * 365 + yoe / 4 - yoe / 100 + doy in
  era * 146097 + doe - 719468.

(** What the round trip needs of one day of a (March-based) year. *)
Definition year_day_ok (doy : Z) : bool :=
  let mp := month_from_march doy in
  let m := civil_month mp in
  let d := doy - (153 * mp + 2) / 5 + 1 in
  (march_month m =? mp) && (1 <=? m) && (m <=? 12) && (1 <=? d) && (d <=? 31).

(** [p] holds on [z], [z+1], ..., [z + n - 1]. *)
Fixpoint all_from (n : nat) (z : Z) (p : Z -> bool) : bool :=
  match n with
  | O => true
  | S n' => p z && all_from n' (z + 1) p
  end.

End Calendar.

(* ------------------------------------------------------------------------- *)
(** ** Host string utilities: [Acore::Tokenize] and [Acore::StringTo] *)

Definition string_empty (s : string) : bool :=
  match s with EmptyString => true | String _ _ => false end.

(** [push_token keepEmpty tok] is the [tokens.push_back] of [Tokenize],
    guarded by [keepEmpty || start < end]. *)
Definition push_token (keepEmpty : bool) (tok : string) : list string :=
  if keepEmpty || negb (string_empty tok) then [tok] else [].

(** [Tokenize_from sep keepEmpty str tok]: scan [str]; [tok] is the token
    read since the last separator. *)
Fixpoint Tokenize_from (sep : ascii) (keepEmpty : bool) (str tok : string)
  : list string :=
  match str with
  | EmptyString => push_token keepEmpty tok
  | String c rest =>
      if Ascii.eqb c sep
      then push_token keepEmpty tok ++ Tokenize_from sep keepEmpty rest EmptyString
      else Tokenize_from sep keepEmpty rest (tok ++ String c EmptyString)
  end.

Definition Tokenize (str : string) (sep : ascii) (keepEmpty : bool)
  : list string :=
  Tokenize_from sep keepEmpty str EmptyString.

Definition digit_of (c : ascii) : option Z :=
  let n := Z.of_N (N_of_ascii c) in
  if (48 <=? n) && (n <=? 57) then Some (n - 48) else None.

Fixpoint parse_digits (s : string) (acc : Z) : option Z :=
  match s with
  | EmptyString => Some acc
  | String c rest =>
      match digit_of c with
      | Some d => parse_digits rest (10 * acc + d)
      | None => None
      end
  end.

(** [StringTo<T>] for an unsigned [T] of [bits] bits: the whole string must
    be a non-empty run of decimal digits whose value fits [T]. *)
Definition StringTo_unsigned (bits : Z) (s : string) : option Z :=
  if string_empty s then None
  else match parse_digits s 0 with
       | Some v => if v <? 2 ^ bits then Some v else None
       | None => None
       end.

Definition StringTo_uint8 : string -> option Z := StringTo_unsigned 8.
Definition StringTo_uint32 : string -> option Z := StringTo_unsigned 32.

(** Every non-empty token converts to [uint32]. *)
Definition numeric_tokens (tokens : list string) : Prop :=
  forall token, In token tokens -> string_empty token = false ->
                exists eventId, StringTo_uint32 token = Some eventId.

(** The event ids named by a token list. *)
Definition event_ids (tokens : list string) : list Z :=
  flat_map (fun token => match StringTo_uint32 token with
                         | Some eventId => [eventId]
                         | None => []
                         end) tokens.

(** Every character of [s] satisfies [p]. *)
Fixpoint string_forall (p : ascii -> bool) (s : string) : bool :=
  match s with
  | EmptyString => true
  | String c rest => p c && string_forall p rest
  end.

(* ------------------------------------------------------------------------- *)
(** ** Broken-down time *)

(** The fields of [struct tm] the module reads or writes. *)
Record tm : Set := mk_tm {
  tm_sec : Z;
  tm_min : Z;
  tm_hour : Z;
  tm_mday : Z;
  tm_mon : Z;    (* months since January, 0..11 *)
  tm_year : Z;   (* years since 1900 *)
  tm_wday : Z    (* days since Sunday, 0..6 *)
}.

Definition set_tm_sec (t : tm) (v : Z) : tm :=
  mk_tm v (tm_min t) (tm_hour t) (tm_mday t) (tm_mon t) (tm_year t) (tm_wday t).
Definition set_tm_min (t : tm) (v : Z) : tm :=
  mk_tm (tm_sec t) v (tm_hour t) (tm_mday t) (tm_mon t) (tm_year t) (tm_wday t).
Definition set_tm_hour (t : tm) (v : Z) : tm :=
  mk_tm (tm_sec t) (tm_min t) v (tm_mday t) (tm_mon t) (tm_year t) (tm_wday t).
Definition set_tm_mday (t : tm) (v : Z) : tm :=
  mk_tm (tm_sec t) (tm_min t) (tm_hour t) v (tm_mon t) (tm_year t) (tm_wday t).

Definition tm_clock (t : tm) : Z * Z * Z := (tm_hour t, tm_min t, tm_sec t).

(** Lexicographic order on (hour, minute, second) triples. *)
Definition clock_lt (a b : Z * Z * Z) : Prop :=
  let '(ah, am, asec) := a in
  let '(bh, bm, bsec) := b in
  ah < bh \/ (ah = bh /\ am < bm) \/ (ah = bh /\ am = bm /\ asec < bsec).

Definition clock_le (a b : Z * Z * Z) : Prop := clock_lt a b \/ a = b.

(** A valid 24-hour clock reading. *)
Definition valid_clock (h m s : Z) : Prop :=
  0 <= h <= 23 /\ 0 <= m <= 59 /\ 0 <= s <= 59.

(* ------------------------------------------------------------------------- *)
(** ** Module and host state *)

Inductive ShutdownMask : Set := SHUTDOWN_MASK_RESTART | SHUTDOWN_MASK_IDLE.

(** A task of the scheduler: the delay it was scheduled with, in seconds,
    and the [preAnnounceSeconds] its closure captured. *)
Record Task : Set := mk_Task {
  task_delay : Z;
  task_preAnnounceSeconds : Z
}.

Inductive LogLevel : Set := LOG_ERROR | LOG_WARN | LOG_INFO.

Inductive LogMessage : Set :=
| IncorrectTime (configTime : string)
| IncorrectDay (restartDays : Z)
| IncorrectHour (configTime : string)
| IncorrectMinute (configTime : string)
| IncorrectSecond (configTime : string)
| SetNextPeriod
| BlankLine
| SystemLoading
| NextTimeToShutdown (nextResetTime : Z)
| RemainingTimeToShutdown (diffToShutdown : Z)
| PreAnnounceMoreThanOneDay (preAnnounceSeconds : Z)
| NextTimeToPreAnnounce (timeToPreAnnounce : Z)
| RemainingTimeToPreAnnounce (diffToPreAnnounce : Z)
| StartingEvent (description : string) (eventId : Z).

(** The module's members together with the state of the collaborators it
    drives: the file-level [scheduler], the host's pending shutdown
    ([sWorld]), the game events started ([sGameEventMgr]) and the log. *)
Record World : Set := mk_World {
  isEnableModule : bool;
  shutdownMask : ShutdownMask;
  scheduler : list Task;
  worldShutdownTimer : option Z;
  startedEvents : list Z;
  logged : list (LogLevel * LogMessage)
}.

Definition set_isEnableModule (w : World) (b : bool) : World :=
  mk_World b (shutdownMask w) (scheduler w) (worldShutdownTimer w)
           (startedEvents w) (logged w).

Definition set_shutdownMask (w : World) (m : ShutdownMask) : World :=
  mk_World (isEnableModule w) m (scheduler w) (worldShutdownTimer w)
           (startedEvents w) (logged w).

Definition LOG (level : LogLevel) (msg : LogMessage) (w : World) : World :=
  mk_World (isEnableModule w) (shutdownMask w) (scheduler w)
           (worldShutdownTimer w) (startedEvents w)
           (logged w ++ [(level, msg)]).

(** [scheduler.CancelAll()] *)
Definition CancelAll (w : World) : World :=
  mk_World (isEnableModule w) (shutdownMask w) [] (worldShutdownTimer w)
           (startedEvents w) (logged w).

(** [scheduler.Schedule(Seconds(delay), closure)] *)
Definition Schedule (delay captured : Z) (w : World) : World :=
  mk_World (isEnableModule w) (shutdownMask w)
           (scheduler w ++ [mk_Task delay captured])
           (worldShutdownTimer w) (startedEvents w) (logged w).

(** [sWorld->ShutdownCancel()] *)
Definition ShutdownCancel (w : World) : World :=
  mk_World (isEnableModule w) (shutdownMask w) (scheduler w) None
           (startedEvents w) (logged w).

(** [sGameEventMgr->StartEvent(eventId)] *)
Definition StartEvent (eventId : Z) (w : World) : World :=
  mk_World (isEnableModule w) (shutdownMask w) (scheduler w)
           (worldShutdownTimer w) (startedEvents w ++ [eventId]) (logged w).

(** The options read through [sConfigMgr->GetOption]; the unsigned ones
    hold values of their C++ type. *)
Record Config : Set := mk_Config {
  cfg_Enabled : bool;
  cfg_Time : string;
  cfg_Weekday : Z;
  cfg_EveryDays : Z;
  cfg_PreAnnounceSeconds : Z;
  cfg_Action : string;
  cfg_StartEvents : string
}.

(** The time of day [Init] reads from the [Time] option: three tokens,
    each converting to [uint8]. *)
Definition config_clock (cfg : Config) : option (Z * Z * Z) :=
  match Tokenize (cfg_Time cfg) ":"%char false with
  | [th; tmin; ts] =>
      match StringTo_uint8 th, StringTo_uint8 tmin, StringTo_uint8 ts with
      | Some h, Some m, Some s => Some (h, m, s)
      | _, _, _ => None
      end
  | _ => None
  end.

(** All range checks of lines 143-162 pass. *)
Definition in_range (restartDays h m s : Z) : Prop :=
  1 <= restartDays <= 365 /\ h <= 23 /\ m < 60 /\ s < 60.

(** The world [Init] returns from its three early failure exits: the flag
    cleared and one error logged, nothing else changed. *)
Definition rejected (msg : LogMessage) (w : World) : World :=
  set_isEnableModule (LOG LOG_ERROR msg (set_isEnableModule w true)) false.

(* ------------------------------------------------------------------------- *)
(** ** Reference instances

    The zone of the worked instances is UTC and their event map has no
    descriptions. *)

Definition UTC : Z := 0.

Definition no_description (eventId : Z) : string := EmptyString.

(** A world with a task pending from an earlier [Init] and a shutdown
    countdown running on the host. *)
Definition armed_world : World :=
  mk_World true SHUTDOWN_MASK_RESTART [mk_Task 500 3600] (Some 120) [] [].


Section LocalTime.

(** Offset of local time from UTC in force at now, in seconds. *)
Variable gmtoff : Z.

(** [sGameEventMgr->GetEventMap()[eventId].Description], read for the log
    line only.  The map is the host's; its lookup is taken as a total
    function, so the one failure of [StartPersistentGameEvents] followed
    here is the dereference of an empty optional. *)
Variable eventDescription : Z -> string.

(** [scheduler.Update(diff)] of the host's task scheduler. *)
Variable scheduler_Update : Z -> World -> World.

(** Local day number and second of the local day of a timestamp. *)
Definition local_day (time : Z) : Z := (time + gmtoff) / 86400.
Definition local_second (time : Z) : Z := (time + gmtoff) mod 86400.

(** [Acore::Time::TimeBreakdown]: [localtime_r]. *)
Definition TimeBreakdown (time : Z) : tm :=
  let '(y, m, d) := Calendar.civil_from_days (local_day time) in
  let s := local_second time in
  {| tm_sec := s mod 60;
     tm_min := (s / 60) mod 60;
     tm_hour := s / 3600;
     tm_mday := d;
     tm_mon := m - 1;
     tm_year := y - 1900;
     tm_wday := (local_day time + 4) mod 7 |}.

(** [mktime]: fields out of range are carried over, [tm_wday] is ignored. *)
Definition mktime (t : tm) : Z :=
  let y := tm_year t + 1900 + tm_mon t / 12 in
  let m := tm_mon t mod 12 + 1 in
  Calendar.days_from_civil y m (tm_mday t) * 86400
  + tm_hour t * 3600 + tm_min t * 60 + tm_sec t - gmtoff.

(** The timestamp of local day [day] at clock reading [h]:[m]:[s]. *)
Definition clock_time (day h m s : Z) : Z :=
  day * 86400 + h * 3600 + m * 60 + s - gmtoff.

(* ----------------------------------------------------------------------- *)
(** ** Next-occurrence calculator *)

Definition GetNextResetTime
  (time restartDays restartHour restartMinute restartSecond : Z) : Z :=
  let timeLocal := TimeBreakdown time in
  let timeLocal := set_tm_hour timeLocal restartHour in
  let timeLocal := set_tm_min timeLocal restartMinute in
  let timeLocal := set_tm_sec timeLocal restartSecond in
  let midnightLocal := mktime timeLocal in
  if (1 <? restartDays) || (midnightLocal <=? time)
  then midnightLocal + to_u32 (DAY * restartDays)
  else midnightLocal.

(** The value of [daysUntil] when [GetNextWeekdayTime] adds it to
    [tm_mday]; [%] on [int] truncates, hence [Z.rem]. *)
Definition daysUntil_of
  (timeLocal : tm) (weekday restartHour restartMinute restartSecond : Z) : Z :=
  let currentWeekday := tm_wday timeLocal in
  let daysUntil := Z.rem (weekday - currentWeekday + 7) 7 in
  if daysUntil =? 0 then
    if (restartHour <? tm_hour timeLocal)
       || ((tm_hour timeLocal =? restartHour)
           && (restartMinute <? tm_min timeLocal))
       || ((tm_hour timeLocal =? restartHour)
           && (tm_min timeLocal =? restartMinute)
           && (restartSecond <=? tm_sec timeLocal))
    then 7
    else daysUntil
  else daysUntil.

Definition GetNextWeekdayTime
  (now weekday restartHour restartMinute restartSecond : Z) : Z :=
  let timeLocal := TimeBreakdown now in
  let daysUntil :=
    daysUntil_of timeLocal weekday restartHour restartMinute restartSecond in
  let timeLocal := set_tm_mday timeLocal (tm_mday timeLocal + daysUntil) in
  let timeLocal := set_tm_hour timeLocal restartHour in
  let timeLocal := set_tm_min timeLocal restartMinute in
  let timeLocal := set_tm_sec timeLocal restartSecond in
  let result := mktime timeLocal in
  result.


(* ----------------------------------------------------------------------- *)
(** ** [StartPersistentGameEvents]

    The result is [None] when the function dereferences an empty optional
    ([*Acore::StringTo<uint32>(token)] on a token that does not parse). *)

Fixpoint StartEvents_loop (tokens : list string) (w : World) : option World :=
  match tokens with
  | [] => Some w
  | token :: rest =>
      if string_empty token then StartEvents_loop rest w
      else
        match StringTo_uint32 token with
        | None => None
        | Some eventId =>
            let w := StartEvent eventId w in
            let w := LOG LOG_INFO
                       (StartingEvent (eventDescription eventId) eventId) w in
            StartEvents_loop rest w
        end
  end.

Definition StartPersistentGameEvents (cfg : Config) (w : World)
  : option World :=
  let eventList := cfg_StartEvents cfg in
  let tokens := Tokenize eventList " "%char false in
  StartEvents_loop tokens w.

(* ----------------------------------------------------------------------- *)
(** ** The plan computed by [Init] *)

(** The locals of [Init] that describe the two events. *)
Record ShutdownPlan : Set := mk_ShutdownPlan {
  nextResetTime : Z;       (* uint64 *)
  diffToShutdown : Z;      (* uint32 *)
  timeToPreAnnounce : Z;   (* uint32 *)
  diffToPreAnnounce : Z;   (* uint32 *)
  preAnnounceSeconds : Z   (* uint32, as captured by the scheduled task *)
}.

Definition weekly_mode (weekday : Z) : bool :=
  (0 <=? weekday) && (weekday <=? 6).

Definition days_out_of_range (restartDays : Z) : bool :=
  (restartDays <? 1) || (365 <? restartDays).

(** [nextResetTime - static_cast<uint32>(nowTime)], stored in a [uint32]. *)
Definition diff_to (nextResetTime nowTime : Z) : Z :=
  to_u32 (to_u64 (nextResetTime - to_u32 nowTime)).

(** [nextResetTime] after the [+=] of the "next period" branch. *)
Definition next_period (weekday restartDays nextResetTime : Z) : Z :=
  if weekly_mode weekday
  then to_u64 (nextResetTime + WEEK)
  else to_u64 (nextResetTime + to_u32 (DAY * restartDays)).

(** [preAnnounceSeconds] after the one-day check. *)
Definition clamp_preAnnounce (preAnnounceSeconds : Z) : Z :=
  if DAY <? preAnnounceSeconds then HOUR else preAnnounceSeconds.

(** Lines 164-174 and 187-203 of [Init]: from the first computed
    occurrence [nextResetTime0] to the values logged and scheduled. *)
Definition build_plan
  (nowTime weekday restartDays nextResetTime0 configuredPreAnnounce : Z)
  : ShutdownPlan :=
  let diffToShutdown0 := diff_to nextResetTime0 nowTime in
  let nextResetTime :=
    if diffToShutdown0 <? 10
    then next_period weekday restartDays nextResetTime0
    else nextResetTime0 in
  let diffToShutdown :=
    if diffToShutdown0 <? 10
    then diff_to nextResetTime nowTime
    else diffToShutdown0 in
  let preAnnounceSeconds := clamp_preAnnounce configuredPreAnnounce in
  let timeToPreAnnounce := to_u32 (to_u32 nextResetTime - preAnnounceSeconds) in
  let diffToPreAnnounce := to_u32 (timeToPreAnnounce - to_u32 nowTime) in
  if diffToShutdown <? preAnnounceSeconds
  then mk_ShutdownPlan nextResetTime diffToShutdown
                       (to_u32 (to_u32 nowTime + 1)) 1 diffToShutdown
  else mk_ShutdownPlan nextResetTime diffToShutdown
                       timeToPreAnnounce diffToPreAnnounce preAnnounceSeconds.

(** Lines 128-141: the first occurrence, stored in the [uint64]
    [nextResetTime]; [None] when the periodic branch rejects
    [EveryDays] and returns. *)
Definition first_occurrence
  (nowTime weekday restartDays restartHour restartMinute restartSecond : Z)
  : option Z :=
  if weekly_mode weekday then
    Some (to_u64 (GetNextWeekdayTime nowTime weekday
                    restartHour restartMinute restartSecond))
  else if days_out_of_range restartDays then None
  else
    Some (to_u64 (GetNextResetTime nowTime restartDays
                    restartHour restartMinute restartSecond)).

(** The timestamp returned by the calculator that lines 128-141 select,
    before it is stored in the [uint64]. *)
Definition computed_occurrence
  (nowTime weekday restartDays restartHour restartMinute restartSecond : Z)
  : Z :=
  if weekly_mode weekday
  then GetNextWeekdayTime nowTime weekday
         restartHour restartMinute restartSecond
  else GetNextResetTime nowTime restartDays
         restartHour restartMinute restartSecond.

(** The period added when the occurrence is too close, in seconds. *)
Definition period_seconds (weekday restartDays : Z) : Z :=
  (if weekly_mode weekday then 7 else restartDays) * 86400.

(** The plan [Init] reaches for a parsed time of day, if it reaches one. *)
Definition Init_plan
  (cfg : Config) (nowTime restartHour restartMinute restartSecond : Z)
  : option ShutdownPlan :=
  match first_occurrence nowTime (cfg_Weekday cfg) (cfg_EveryDays cfg)
          restartHour restartMinute restartSecond with
  | Some nextResetTime0 =>
      Some (build_plan nowTime (cfg_Weekday cfg) (cfg_EveryDays cfg)
              nextResetTime0 (cfg_PreAnnounceSeconds cfg))
  | None => None
  end.

(* ----------------------------------------------------------------------- *)
(** ** [ServerAutoShutdown::Init] and [OnUpdate] *)

(** [tokens.at(itr)] converted to [uint8]. *)
Definition token_uint8 (tokens : list string) (itr : nat) : option Z :=
  match nth_error tokens itr with
  | Some token => StringTo_uint8 token
  | None => None
  end.

Definition CheckTime (tokens : list string) (index : list nat) : bool :=
  forallb (fun itr =>
             match token_uint8 tokens itr with
             | Some _ => true
             | None => false
             end) index.

(** Lines 143-162: each failed check logs and clears [_isEnableModule];
    none of them returns. *)
Definition range_checks
  (configTime : string)
  (restartDays restartHour restartMinute restartSecond : Z) (w : World)
  : World :=
  if days_out_of_range restartDays then
    set_isEnableModule (LOG LOG_ERROR (IncorrectDay restartDays) w) false
  else if 23 <? restartHour then
    set_isEnableModule (LOG LOG_ERROR (IncorrectHour configTime) w) false
  else if 60 <=? restartMinute then
    set_isEnableModule (LOG LOG_ERROR (IncorrectMinute configTime) w) false
  else if 60 <=? restartSecond then
    set_isEnableModule (LOG LOG_ERROR (IncorrectSecond configTime) w) false
  else w.

(** Lines 143-231: what [Init] does once [nextResetTime] holds the first
    occurrence [nextResetTime0]. *)
Definition Init_arm
  (cfg : Config)
  (nowTime restartHour restartMinute restartSecond nextResetTime0 : Z)
  (w : World) : option World :=
  let weekday := cfg_Weekday cfg in
  let restartDays := cfg_EveryDays cfg in
  let w := range_checks (cfg_Time cfg) restartDays
             restartHour restartMinute restartSecond w in
  let plan := build_plan nowTime weekday restartDays nextResetTime0
                (cfg_PreAnnounceSeconds cfg) in
  let w := if diff_to nextResetTime0 nowTime <? 10
           then LOG LOG_WARN SetNextPeriod w else w in
  let w := LOG LOG_INFO BlankLine w in
  let w := LOG LOG_INFO SystemLoading w in
  let w := CancelAll w in
  let w := ShutdownCancel w in
  let w := LOG LOG_INFO (NextTimeToShutdown (to_i64 (nextResetTime plan))) w in
  let w := LOG LOG_INFO (RemainingTimeToShutdown (diffToShutdown plan)) w in
  let w := LOG LOG_INFO BlankLine w in
  let w := if DAY <? cfg_PreAnnounceSeconds cfg
           then LOG LOG_ERROR
                  (PreAnnounceMoreThanOneDay (cfg_PreAnnounceSeconds cfg)) w
           else w in
  let w := LOG LOG_INFO (NextTimeToPreAnnounce (timeToPreAnnounce plan)) w in
  let w := LOG LOG_INFO
             (RemainingTimeToPreAnnounce (diffToPreAnnounce plan)) w in
  let w := LOG LOG_INFO BlankLine w in
  match StartPersistentGameEvents cfg w with
  | None => None
  | Some w =>
      let w := if String.eqb (cfg_Action cfg) "shutdown"
               then set_shutdownMask w SHUTDOWN_MASK_IDLE
               else set_shutdownMask w SHUTDOWN_MASK_RESTART in
      Some (Schedule (diffToPreAnnounce plan) (preAnnounceSeconds plan) w)
  end.

(** [Init] with the current time [nowTime] read from the clock.  [None]
    stands for the dereference of an empty optional. *)
Definition Init (cfg : Config) (nowTime : Z) (w : World) : option World :=
  let w := set_isEnableModule w (cfg_Enabled cfg) in
  if negb (isEnableModule w) then Some w
  else
    let configTime := cfg_Time cfg in
    let tokens := Tokenize configTime ":"%char false in
    if negb (Nat.eqb (List.length tokens) 3) then
      Some (set_isEnableModule
              (LOG LOG_ERROR (IncorrectTime configTime) w) false)
    else if negb (CheckTime tokens [0; 1; 2]%nat) then
      Some (set_isEnableModule
              (LOG LOG_ERROR (IncorrectTime configTime) w) false)
    else
      let weekday := cfg_Weekday cfg in
      let restartDays := cfg_EveryDays cfg in
      match token_uint8 tokens 0, token_uint8 tokens 1,
            token_uint8 tokens 2 with
      | Some restartHour, Some restartMinute, Some restartSecond =>
          match first_occurrence nowTime weekday restartDays
                  restartHour restartMinute restartSecond with
          | Some nextResetTime0 =>
              Init_arm cfg nowTime restartHour restartMinute restartSecond
                       nextResetTime0 w
          | None =>
              Some (set_isEnableModule
                      (LOG LOG_ERROR (IncorrectDay restartDays) w) false)
          end
      | _, _, _ => None
      end.

Definition OnUpdate (diff : Z) (w : World) : World :=
  if negb (isEnableModule w) then w else scheduler_Update diff w.

(* ------------------------------------------------------------------------- *)
(** ** The calendar round trip *)

Lemma all_from_spec (p : Z -> bool) (n : nat) :
  forall z, Calendar.all_from n z p = true ->
  forall k, z <= k < z + Z.of_nat n -> p k = true.
Proof.
  induction n as [|n IH]; intros z Hall k Hk.
  - simpl in Hk. lia.
  - cbn [Calendar.all_from] in Hall.
    apply andb_true_iff in Hall as [Hz Hrest].
    destruct (Z.eq_dec k z) as [->|Hne]; [exact Hz|].
    apply (IH (z + 1) Hrest). lia.
Qed.

Lemma year_days_checked :
  Calendar.all_from 366 0 Calendar.year_day_ok = true.
Proof. vm_compute. reflexivity. Qed.

Lemma year_day_ok_true (doy : Z) :
  0 <= doy <= 365 -> Calendar.year_day_ok doy = true.
Proof.
  intros H. apply (all_from_spec Calendar.year_day_ok 366 0 year_days_checked).
  change (Z.of_nat 366) with 366. lia.
Qed.

(** The year of an era and the day within it are in range. *)
Lemma year_of_era_range (doe : Z) :
  0 <= doe < 146097 ->
  0 <= Calendar.year_of_era doe <= 399 /\
  0 <= Calendar.day_of_year doe (Calendar.year_of_era doe) <= 365.
Proof.
  intros Hdoe. unfold Calendar.day_of_year, Calendar.year_of_era.
  set (c := Z.min (doe / 36524) 3).
  set (r := doe - c * 36524).
  set (q := r / 1461).
  set (r4 := r - q * 1461).
  set (y := Z.min (r4 / 365) 3).
  assert (Hc : 0 <= c <= 3 /\ 0 <= r /\ (c < 3 -> r < 36524) /\ r <= 36524).
  { subst r c. pose proof (Z.div_mod doe 36524 ltac:(lia)).
    pose proof (Z.mod_pos_bound doe 36524 ltac:(lia)).
    assert (0 <= doe / 36524) by (apply Z.div_pos; lia). lia. }
  assert (Hq : 0 <= q <= 24 /\ 0 <= r4 < 1461).
  { subst r4 q. pose proof (Z.div_mod r 1461 ltac:(lia)).
    pose proof (Z.mod_pos_bound r 1461 ltac:(lia)).
    assert (0 <= r / 1461) by (apply Z.div_pos; lia). lia. }
  assert (Hy : 0 <= y <= 3 /\ 0 <= r4 - y * 365
               /\ (y < 3 -> r4 - y * 365 < 365)).
  { subst y. pose proof (Z.div_mod r4 365 ltac:(lia)).
    pose proof (Z.mod_pos_bound r4 365 ltac:(lia)).
    assert (0 <= r4 / 365) by (apply Z.div_pos; lia). lia. }
  assert (Hcq : c = 3 \/ q * 4 + y <= 99).
  { destruct (Z.eq_dec c 3); [now left|right].
    assert (q * 1461 <= r) by lia. lia. }
  assert (Hq4 : q * 4 + y <= 99).
  { destruct Hcq as [Hc3|]; [|assumption].
    destruct (Z.eq_dec q 24); [|lia].
    assert (r4 <= 1460) by lia. lia. }
  assert (H4 : (c * 100 + q * 4 + y) / 4 = c * 25 + q).
  { symmetry. apply (Z.div_unique _ 4 _ y); lia. }
  assert (H100 : (c * 100 + q * 4 + y) / 100 = c).
  { symmetry. apply (Z.div_unique _ 100 _ (q * 4 + y)); lia. }
  rewrite H4, H100. lia.
Qed.

Lemma civil_from_days_range (z : Z) :
  let '(_, m, d) := Calendar.civil_from_days z in
  1 <= m <= 12 /\ 1 <= d <= 31.
Proof.
  unfold Calendar.civil_from_days.
  set (doe := (z + 719468) mod 146097).
  destruct (year_of_era_range doe (Z.mod_pos_bound _ 146097 eq_refl))
    as [_ Hdoy].
  pose proof (year_day_ok_true _ Hdoy) as Hok.
  unfold Calendar.year_day_ok in Hok.
  repeat (apply andb_true_iff in Hok as [Hok ?]).
  lia.
Qed.

Lemma days_from_civil_from_days (z : Z) :
  let '(y, m, d) := Calendar.civil_from_days z in
  Calendar.days_from_civil y m d = z.
Proof.
  unfold Calendar.civil_from_days.
  set (doe := (z + 719468) mod 146097).
  set (era := (z + 719468) / 146097).
  destruct (year_of_era_range doe (Z.mod_pos_bound _ 146097 eq_refl))
    as [Hyoe Hdoy].
  pose proof (year_day_ok_true _ Hdoy) as Hok.
  unfold Calendar.year_day_ok in Hok.
  set (yoe := Calendar.year_of_era doe) in *.
  set (doy := Calendar.day_of_year doe yoe) in *.
  set (mp := Calendar.month_from_march doy) in *.
  set (m := Calendar.civil_month mp) in *.
  repeat (apply andb_true_iff in Hok as [Hok ?]).
  assert (Hmp : Calendar.march_month m = mp) by lia.
  unfold Calendar.days_from_civil. rewrite Hmp.
  assert (Hy : (if m <=? 2
                then yoe + era * 400 + (if m <=? 2 then 1 else 0) - 1
                else yoe + era * 400 + (if m <=? 2 then 1 else 0))
               = yoe + era * 400) by (destruct (m <=? 2); lia).
  rewrite Hy.
  rewrite Z.div_add by lia. rewrite Z.mod_add by lia.
  rewrite (Z.div_small yoe 400), (Z.mod_small yoe 400) by lia.
  assert (Hdoy' : doy = doe - (365 * yoe + yoe / 4 - yoe / 100))
    by reflexivity.
  pose proof (Z.div_mod (z + 719468) 146097 ltac:(lia)) as Hdm.
  fold doe era in Hdm. lia.
Qed.

(* ------------------------------------------------------------------------- *)
(** ** Local time: [mktime] after [TimeBreakdown] *)

Lemma DAY_value : DAY = 86400.
Proof. reflexivity. Qed.

Lemma WEEK_value : WEEK = 604800.
Proof. reflexivity. Qed.

Lemma HOUR_value : HOUR = 3600.
Proof. reflexivity. Qed.

Lemma local_time_split (time : Z) :
  time = local_day time * 86400 + local_second time - gmtoff.
Proof.
  unfold local_day, local_second.
  pose proof (Z.div_mod (time + gmtoff) 86400 ltac:(lia)). lia.
Qed.

Lemma local_second_range (time : Z) : 0 <= local_second time < 86400.
Proof. unfold local_second. apply Z.mod_pos_bound. lia. Qed.

(** The clock fields of a broken-down time are in range and add up to the
    second of the day. *)
Lemma TimeBreakdown_clock (time : Z) :
  let t := TimeBreakdown time in
  0 <= tm_hour t <= 23 /\ 0 <= tm_min t <= 59 /\ 0 <= tm_sec t <= 59 /\
  tm_hour t * 3600 + tm_min t * 60 + tm_sec t = local_second time.
Proof.
  unfold TimeBreakdown.
  destruct (Calendar.civil_from_days (local_day time)) as [[y m] d].
  cbn [tm_hour tm_min tm_sec].
  pose proof (local_second_range time) as Hs.
  set (s := local_second time) in *.
  pose proof (Z.div_mod s 60 ltac:(lia)) as H60.
  pose proof (Z.mod_pos_bound s 60 ltac:(lia)) as Hsec.
  pose proof (Z.div_mod (s / 60) 60 ltac:(lia)) as Hm.
  pose proof (Z.mod_pos_bound (s / 60) 60 ltac:(lia)) as Hmin.
  assert (Hh : s / 3600 = s / 60 / 60)
    by (rewrite Z.div_div by lia; reflexivity).
  rewrite Hh. lia.
Qed.

Lemma TimeBreakdown_wday (time : Z) : 0 <= tm_wday (TimeBreakdown time) <= 6.
Proof.
  unfold TimeBreakdown.
  destruct (Calendar.civil_from_days (local_day time)) as [[y m] d].
  cbn [tm_wday].
  pose proof (Z.mod_pos_bound (local_day time + 4) 7 ltac:(lia)). lia.
Qed.

(** [mktime] of today's broken-down time, [k] days added to [tm_mday] and
    the clock fields overwritten. *)
Lemma mktime_TimeBreakdown_shifted (time k h m s : Z) :
  let t := TimeBreakdown time in
  mktime (set_tm_sec (set_tm_min (set_tm_hour
            (set_tm_mday t (tm_mday t + k)) h) m) s)
  = clock_time (local_day time + k) h m s.
Proof.
  unfold TimeBreakdown, mktime, clock_time.
  pose proof (civil_from_days_range (local_day time)) as Hr.
  pose proof (days_from_civil_from_days (local_day time)) as Hd.
  destruct (Calendar.civil_from_days (local_day time)) as [[y mo] d].
  cbn [set_tm_sec set_tm_min set_tm_hour set_tm_mday
       tm_sec tm_min tm_hour tm_mday tm_mon tm_year tm_wday].
  rewrite (Z.div_small (mo - 1) 12), (Z.mod_small (mo - 1) 12) by lia.
  replace (y - 1900 + 1900 + 0) with y by lia.
  replace (mo - 1 + 1) with mo by lia.
  assert (Hlin : Calendar.days_from_civil y mo (d + k)
                 = Calendar.days_from_civil y mo d + k)
    by (unfold Calendar.days_from_civil; lia).
  rewrite Hlin, Hd. reflexivity.
Qed.

Lemma mktime_TimeBreakdown_clock (time h m s : Z) :
  mktime (set_tm_sec (set_tm_min (set_tm_hour (TimeBreakdown time) h) m) s)
  = clock_time (local_day time) h m s.
Proof.
  pose proof (mktime_TimeBreakdown_shifted time 0 h m s) as H.
  cbv zeta in H. rewrite !Z.add_0_r in H. rewrite <- H.
  destruct (TimeBreakdown time); reflexivity.
Qed.

(** A timestamp built from a day and a valid clock reading breaks down to
    that day and that reading. *)
Lemma clock_time_day (day h m s : Z) :
  valid_clock h m s -> local_day (clock_time day h m s) = day.
Proof.
  intros (Hh & Hm & Hs). unfold local_day, clock_time.
  replace (day * 86400 + h * 3600 + m * 60 + s - gmtoff + gmtoff)
    with (h * 3600 + m * 60 + s + day * 86400) by lia.
  rewrite Z.div_add by lia. rewrite Z.div_small by lia. lia.
Qed.

Lemma clock_time_second (day h m s : Z) :
  valid_clock h m s ->
  local_second (clock_time day h m s) = h * 3600 + m * 60 + s.
Proof.
  intros (Hh & Hm & Hs). unfold local_second, clock_time.
  replace (day * 86400 + h * 3600 + m * 60 + s - gmtoff + gmtoff)
    with (h * 3600 + m * 60 + s + day * 86400) by lia.
  rewrite Z.mod_add by lia. apply Z.mod_small. lia.
Qed.

Lemma clock_time_clock (day h m s : Z) :
  valid_clock h m s ->
  tm_clock (TimeBreakdown (clock_time day h m s)) = (h, m, s).
Proof.
  intros Hv.
  pose proof (TimeBreakdown_clock (clock_time day h m s)) as Hc.
  cbv zeta in Hc. rewrite (clock_time_second _ _ _ _ Hv) in Hc.
  destruct Hv as (Hh & Hm & Hs).
  unfold tm_clock.
  destruct Hc as (Hh' & Hm' & Hs' & Hsum).
  assert (tm_hour (TimeBreakdown (clock_time day h m s)) = h) by lia.
  assert (tm_min (TimeBreakdown (clock_time day h m s)) = m) by lia.
  assert (tm_sec (TimeBreakdown (clock_time day h m s)) = s) by lia.
  congruence.
Qed.




Lemma clock_le_seconds (h1 m1 s1 h2 m2 s2 : Z) :
  0 <= m1 <= 59 -> 0 <= s1 <= 59 -> 0 <= m2 <= 59 -> 0 <= s2 <= 59 ->
  clock_le (h1, m1, s1) (h2, m2, s2) <->
  h1 * 3600 + m1 * 60 + s1 <= h2 * 3600 + m2 * 60 + s2.
Proof.
  intros. unfold clock_le, clock_lt. split.
  - intros [Hlt | Heq]; [lia | injection Heq; lia].
  - intros Hle.
    destruct (Z.eq_dec h1 h2) as [->|]; [|left; lia].
    destruct (Z.eq_dec m1 m2) as [->|]; [|left; lia].
    destruct (Z.eq_dec s1 s2) as [->|]; [now right | left; lia].
Qed.

(* ------------------------------------------------------------------------- *)
(** ** Properties of the next-occurrence calculator *)

Lemma GetNextResetTime_unfold (time restartDays h m s : Z) :
  GetNextResetTime time restartDays h m s =
  let midnightLocal := clock_time (local_day time) h m s in
  if (1 <? restartDays) || (midnightLocal <=? time)
  then midnightLocal + to_u32 (DAY * restartDays)
  else midnightLocal.
Proof.
  unfold GetNextResetTime. rewrite mktime_TimeBreakdown_clock. reflexivity.
Qed.

Lemma GetNextWeekdayTime_unfold (now weekday h m s : Z) :
  GetNextWeekdayTime now weekday h m s =
  clock_time
    (local_day now + daysUntil_of (TimeBreakdown now) weekday h m s) h m s.
Proof.
  unfold GetNextWeekdayTime. apply mktime_TimeBreakdown_shifted.
Qed.

Lemma clock_time_shift (day k h m s : Z) :
  clock_time day h m s + k * 86400 = clock_time (day + k) h m s.
Proof. unfold clock_time. lia. Qed.


Lemma to_u32_small (z : Z) : 0 <= z < 2 ^ 32 -> to_u32 z = z.
Proof. intros H. unfold to_u32. apply Z.mod_small. exact H. Qed.


(** A period of more than one day always advances the target time of
    today, by the 32-bit product [DAY * restartDays]. *)
Lemma GetNextResetTime_advances (now restartDays h m s : Z) :
  1 < restartDays ->
  DAY * restartDays < 2 ^ 32 ->
  GetNextResetTime now restartDays h m s
  = clock_time (local_day now + restartDays) h m s.
Proof.
  intros Hdays Hfit. rewrite GetNextResetTime_unfold. cbv zeta.
  destruct (Z.ltb_spec 1 restartDays) as [_ | ?]; [|lia]. cbn [orb].
  rewrite to_u32_small by (rewrite DAY_value in *; lia).
  rewrite DAY_value, (Z.mul_comm 86400). apply clock_time_shift.
Qed.


(** Every period [Init] accepts (1..365 days) is far below that bound. *)
Corollary GetNextResetTime_validated_period (now restartDays h m s : Z) :
  1 < restartDays <= 365 ->
  GetNextResetTime now restartDays h m s
  = clock_time (local_day now + restartDays) h m s.
Proof.
  intros Hd.
  apply GetNextResetTime_advances; [lia | rewrite DAY_value; lia].
Qed.

(** In weekly mode [daysUntil] is between 0 and 6 before the same-day
    check. *)
Lemma daysUntil_rem (now weekday : Z) :
  0 <= weekday <= 6 ->
  let d := Z.rem (weekday - tm_wday (TimeBreakdown now) + 7) 7 in
  0 <= d <= 6 /\ (d = 0 <-> weekday = tm_wday (TimeBreakdown now)).
Proof.
  intros Hw d. subst d.
  pose proof (TimeBreakdown_wday now) as Hwd.
  set (wd := tm_wday (TimeBreakdown now)) in *.
  rewrite Z.rem_mod_nonneg by lia.
  pose proof (Z.mod_pos_bound (weekday - wd + 7) 7 ltac:(lia)) as Hb.
  split; [lia|].
  pose proof (Z.div_mod (weekday - wd + 7) 7 ltac:(lia)) as Hdm.
  split; intros H.
  - rewrite H in Hdm. lia.
  - subst weekday. replace (wd - wd + 7) with (1 * 7) by lia.
    apply Z.mod_mul. lia.
Qed.

(** The same-day test of [GetNextWeekdayTime] is the lexicographic
    comparison "target at or before now". *)
Lemma same_day_test (t : tm) (h m s : Z) :
  ((h <? tm_hour t)
   || ((tm_hour t =? h) && (m <? tm_min t))
   || ((tm_hour t =? h) && (tm_min t =? m) && (s <=? tm_sec t))) = true
  <-> clock_le (h, m, s) (tm_clock t).
Proof.
  unfold clock_le, clock_lt, tm_clock.
  rewrite !orb_true_iff, !andb_true_iff.
  rewrite !Z.ltb_lt, !Z.eqb_eq, Z.leb_le.
  split.
  - intros [[H | [H1 H2]] | [[H1 H2] H3]].
    + left. lia.
    + left. lia.
    + destruct (Z.eq_dec s (tm_sec t)) as [->|].
      * right. congruence.
      * left. lia.
  - intros [H | H].
    + destruct H as [H | [[H1 H2] | (H1 & H2 & H3)]].
      * left. left. exact H.
      * left. right. lia.
      * right. lia.
    + injection H as H1 H2 H3. right. lia.
Qed.

(** C2. When now falls on the target weekday, [GetNextWeekdayTime] moves
    the occurrence seven days ahead if and only if the target clock
    reading is at or before now's reading in the lexicographic order on
    (hour, minute, second); equal readings move it too. *)
Theorem GetNextWeekdayTime_same_weekday (now weekday h m s : Z) :
  weekday = tm_wday (TimeBreakdown now) ->
  let t := TimeBreakdown now in
  (daysUntil_of t weekday h m s = 7 <-> clock_le (h, m, s) (tm_clock t)) /\
  (daysUntil_of t weekday h m s = 0 <-> ~ clock_le (h, m, s) (tm_clock t)) /\
  (tm_clock t = (h, m, s) -> daysUntil_of t weekday h m s = 7) /\
  (clock_le (h, m, s) (tm_clock t) ->
   GetNextWeekdayTime now weekday h m s
   = clock_time (local_day now + 7) h m s) /\
  (~ clock_le (h, m, s) (tm_clock t) ->
   GetNextWeekdayTime now weekday h m s = clock_time (local_day now) h m s).
Proof.
  intros Hwd t.
  assert (Hdays : daysUntil_of t weekday h m s
                  = if (h <? tm_hour t)
                       || ((tm_hour t =? h) && (m <? tm_min t))
                       || ((tm_hour t =? h) && (tm_min t =? m)
                           && (s <=? tm_sec t))
                    then 7 else 0).
  { unfold daysUntil_of. subst t. rewrite Hwd.
    replace (tm_wday (TimeBreakdown now) - tm_wday (TimeBreakdown now) + 7)
      with 7 by lia.
    reflexivity. }
  rewrite GetNextWeekdayTime_unfold. fold t. rewrite Hdays.
  pose proof (same_day_test t h m s) as Htest.
  destruct ((h <? tm_hour t)
            || ((tm_hour t =? h) && (m <? tm_min t))
            || ((tm_hour t =? h) && (tm_min t =? m) && (s <=? tm_sec t))).
  - assert (Hle : clock_le (h, m, s) (tm_clock t)) by (apply Htest; reflexivity).
    split; [split; [intros _; exact Hle | reflexivity]|].
    split; [split; [discriminate | intros Hn; contradiction]|].
    split; [reflexivity|].
    split; [reflexivity | intros Hn; contradiction].
  - assert (Hnle : ~ clock_le (h, m, s) (tm_clock t)).
    { intros Hle. apply Htest in Hle. discriminate. }
    split; [split; [discriminate | intros Hle; contradiction]|].
    split; [split; [intros _; exact Hnle | reflexivity]|].
    split; [intros Heq; exfalso; apply Hnle; right; congruence|].
    split; [intros Hle; contradiction|].
    intros _. rewrite Z.add_0_r. reflexivity.
Qed.


(* ------------------------------------------------------------------------- *)
(** ** [StartPersistentGameEvents] *)

Lemma StringTo_unsigned_empty (bits : Z) (s : string) :
  string_empty s = true -> StringTo_unsigned bits s = None.
Proof. intros H. unfold StringTo_unsigned. rewrite H. reflexivity. Qed.

Lemma numeric_tokens_cons (token : string) (rest : list string) :
  numeric_tokens (token :: rest) <->
  (string_empty token = false -> exists eventId, StringTo_uint32 token = Some eventId)
  /\ numeric_tokens rest.
Proof.
  unfold numeric_tokens. split.
  - intros H. split.
    + apply H. left. reflexivity.
    + intros t Hin. apply H. right. exact Hin.
  - intros [Hhd Htl] t [<- | Hin]; [exact Hhd | apply Htl; exact Hin].
Qed.

(** On numeric tokens the loop ends, starts the named events in order and
    touches nothing but the event list and the log. *)
Lemma StartEvents_loop_numeric (tokens : list string) :
  numeric_tokens tokens ->
  forall w, exists w',
    StartEvents_loop tokens w = Some w' /\
    isEnableModule w' = isEnableModule w /\
    shutdownMask w' = shutdownMask w /\
    scheduler w' = scheduler w /\
    worldShutdownTimer w' = worldShutdownTimer w /\
    startedEvents w' = startedEvents w ++ event_ids tokens.
Proof.
  induction tokens as [|token rest IH]; intros Hnum w.
  - exists w. cbn. rewrite app_nil_r. repeat split; reflexivity.
  - apply numeric_tokens_cons in Hnum as [Hhd Htl].
    cbn [StartEvents_loop event_ids flat_map].
    destruct (string_empty token) eqn:Hempty.
    + unfold StringTo_uint32.
      rewrite (StringTo_unsigned_empty 32 token Hempty). cbn [app].
      apply (IH Htl w).
    + destruct (Hhd eq_refl) as [eventId Hid]. rewrite Hid.
      destruct (IH Htl (LOG LOG_INFO
                          (StartingEvent (eventDescription eventId) eventId)
                          (StartEvent eventId w)))
        as (w' & Hrun & He & Hm & Hs & Ht & Hev).
      exists w'. split; [exact Hrun|].
      cbn in He, Hm, Hs, Ht, Hev.
      rewrite <- app_assoc in Hev.
      repeat split; assumption.
Qed.

(** A run that ends has met numeric tokens only. *)
Lemma StartEvents_loop_some (tokens : list string) :
  forall w w', StartEvents_loop tokens w = Some w' -> numeric_tokens tokens.
Proof.
  induction tokens as [|token rest IH]; intros w w' Hrun.
  - intros t [].
  - apply numeric_tokens_cons. cbn [StartEvents_loop] in Hrun.
    destruct (string_empty token) eqn:Hempty.
    + split; [discriminate | exact (IH _ _ Hrun)].
    + destruct (StringTo_uint32 token) as [eventId|] eqn:Hid; [|discriminate].
      split; [intros _; exists eventId; reflexivity | exact (IH _ _ Hrun)].
Qed.

(** C10. [StartPersistentGameEvents] completes exactly when every
    non-empty space-separated token of [StartEvents] converts to [uint32]:
    under that precondition the dereference of an empty optional is not
    reached, and without it the function has no defined result. *)
Theorem StartPersistentGameEvents_total_iff (cfg : Config) (w : World) :
  numeric_tokens (Tokenize (cfg_StartEvents cfg) " "%char false) <->
  exists w', StartPersistentGameEvents cfg w = Some w'.
Proof.
  unfold StartPersistentGameEvents. split.
  - intros Hnum.
    destruct (StartEvents_loop_numeric _ Hnum w) as (w' & Hrun & _).
    exists w'. exact Hrun.
  - intros [w' Hrun]. exact (StartEvents_loop_some _ _ _ Hrun).
Qed.

(* ------------------------------------------------------------------------- *)
(** ** The plan *)

(** The remaining time is the distance to the occurrence, reduced to 32
    bits. *)
Lemma mod_u64_u32 (z : Z) : (z mod 2 ^ 64) mod 2 ^ 32 = z mod 2 ^ 32.
Proof.
  apply Z.mod_mod_divide. exists (2 ^ 32). reflexivity.
Qed.

Lemma diff_to_mod (occurrence nowTime : Z) :
  diff_to (to_u64 occurrence) nowTime = (occurrence - nowTime) mod 2 ^ 32.
Proof.
  unfold diff_to, to_u32, to_u64.
  rewrite mod_u64_u32.
  rewrite Zminus_mod, mod_u64_u32, Z.mod_mod by lia.
  rewrite <- Zminus_mod. reflexivity.
Qed.

Lemma diff_to_exact (occurrence nowTime : Z) :
  0 <= occurrence - nowTime < 2 ^ 32 ->
  diff_to (to_u64 occurrence) nowTime = occurrence - nowTime.
Proof. intros H. rewrite diff_to_mod. apply Z.mod_small. exact H. Qed.

Lemma first_occurrence_periodic_days (nowTime weekday restartDays h m s n : Z) :
  first_occurrence nowTime weekday restartDays h m s = Some n ->
  weekly_mode weekday = false ->
  1 <= restartDays <= 365.
Proof.
  unfold first_occurrence, days_out_of_range. intros H Hmode.
  rewrite Hmode in H.
  destruct (Z.ltb_spec restartDays 1); [discriminate|].
  destruct (Z.ltb_spec 365 restartDays); [discriminate|]. lia.
Qed.

Lemma first_occurrence_some (nowTime weekday restartDays h m s : Z) :
  1 <= restartDays <= 365 ->
  exists n, first_occurrence nowTime weekday restartDays h m s = Some n.
Proof.
  intros Hd. unfold first_occurrence, days_out_of_range.
  destruct (weekly_mode weekday); [eexists; reflexivity|].
  destruct (Z.ltb_spec restartDays 1); [lia|].
  destruct (Z.ltb_spec 365 restartDays); [lia|].
  eexists; reflexivity.
Qed.

(** Case analysis on the test [diffToShutdown < preAnnounceSeconds] of
    [build_plan]. *)
Ltac runway_cases :=
  match goal with
  | |- context [if ?a <? ?b then mk_ShutdownPlan _ _ _ _ _ else _] =>
      destruct (Z.ltb_spec a b)
  end.

Lemma build_plan_preAnnounce_le
  (nowTime weekday restartDays nextResetTime0 configured : Z) :
  let plan := build_plan nowTime weekday restartDays nextResetTime0 configured in
  preAnnounceSeconds plan <= diffToShutdown plan.
Proof.
  unfold build_plan. cbv zeta.
  runway_cases; cbn [preAnnounceSeconds diffToShutdown]; lia.
Qed.

Lemma build_plan_diffToShutdown
  (nowTime weekday restartDays nextResetTime0 configured : Z) :
  let plan := build_plan nowTime weekday restartDays nextResetTime0 configured in
  nextResetTime plan
  = (if diff_to nextResetTime0 nowTime <? 10
     then next_period weekday restartDays nextResetTime0
     else nextResetTime0) /\
  diffToShutdown plan = diff_to (nextResetTime plan) nowTime.
Proof.
  unfold build_plan. cbv zeta.
  runway_cases; cbn [nextResetTime diffToShutdown];
    (split; [reflexivity|]);
    destruct (diff_to nextResetTime0 nowTime <? 10); reflexivity.
Qed.

Lemma build_plan_collapsed
  (nowTime weekday restartDays nextResetTime0 configured : Z) :
  let plan := build_plan nowTime weekday restartDays nextResetTime0 configured in
  diffToShutdown plan < clamp_preAnnounce configured ->
  preAnnounceSeconds plan = diffToShutdown plan /\
  diffToPreAnnounce plan = 1 /\
  timeToPreAnnounce plan = to_u32 (to_u32 nowTime + 1).
Proof.
  unfold build_plan. cbv zeta.
  runway_cases;
    cbn [preAnnounceSeconds diffToShutdown diffToPreAnnounce timeToPreAnnounce];
    intros Hlt; [repeat split | lia].
Qed.

(** C9. In every plan [Init] computes, the pre-announce lead time handed
    to the scheduled task is at most the time remaining to the shutdown. *)
Theorem Init_plan_preAnnounce_le
  (cfg : Config) (nowTime h m s : Z) (plan : ShutdownPlan) :
  Init_plan cfg nowTime h m s = Some plan ->
  preAnnounceSeconds plan <= diffToShutdown plan.
Proof.
  unfold Init_plan. intros H.
  destruct (first_occurrence nowTime (cfg_Weekday cfg) (cfg_EveryDays cfg) h m s)
    as [n|]; [|discriminate].
  injection H as <-. apply build_plan_preAnnounce_le.
Qed.

Lemma to_u64_small (z : Z) : 0 <= z < 2 ^ 64 -> to_u64 z = z.
Proof. intros H. unfold to_u64. apply Z.mod_small. exact H. Qed.

Lemma first_occurrence_nonneg (nowTime weekday restartDays h m s n : Z) :
  first_occurrence nowTime weekday restartDays h m s = Some n -> 0 <= n.
Proof.
  unfold first_occurrence, to_u64. intros H.
  destruct (weekly_mode weekday);
    [|destruct (days_out_of_range restartDays); [discriminate|]];
    injection H as <-; apply Z.mod_pos_bound; lia.
Qed.

Lemma to_u64_add_l (a b : Z) : to_u64 (to_u64 a + b) = to_u64 (a + b).
Proof. unfold to_u64. apply Zplus_mod_idemp_l. Qed.

Lemma first_occurrence_computed (nowTime weekday restartDays h m s : Z) :
  weekly_mode weekday = true \/ 1 <= restartDays <= 365 ->
  first_occurrence nowTime weekday restartDays h m s
  = Some (to_u64 (computed_occurrence nowTime weekday restartDays h m s)).
Proof.
  unfold first_occurrence, computed_occurrence, days_out_of_range.
  intros Hreach.
  destruct (weekly_mode weekday); [reflexivity|].
  destruct Hreach as [Hw | Hd]; [discriminate|].
  destruct (Z.ltb_spec restartDays 1); [lia|].
  destruct (Z.ltb_spec 365 restartDays); [lia|]. reflexivity.
Qed.

(** C4. When the occurrence the calculator returns is less than 10
    seconds away and [Init] reaches a plan, the plan's occurrence is that
    one plus exactly one period, seven days in weekly mode and [EveryDays]
    days otherwise, and the remaining time is the distance from now to
    the advanced occurrence. *)
Theorem Init_plan_next_period (cfg : Config) (nowTime h m s : Z) :
  let r := computed_occurrence nowTime (cfg_Weekday cfg) (cfg_EveryDays cfg)
             h m s in
  let period := period_seconds (cfg_Weekday cfg) (cfg_EveryDays cfg) in
  weekly_mode (cfg_Weekday cfg) = true \/ 1 <= cfg_EveryDays cfg <= 365 ->
  0 <= r - nowTime < 10 ->
  exists plan,
    Init_plan cfg nowTime h m s = Some plan /\
    nextResetTime plan = to_u64 (r + period) /\
    (0 <= nowTime -> r + period < 2 ^ 64 ->
     nextResetTime plan = r + period) /\
    diffToShutdown plan = r + period - nowTime.
Proof.
  intros r period Hreach Hnear.
  assert (Hperiod : 86400 <= period <= 365 * 86400
                    /\ next_period (cfg_Weekday cfg) (cfg_EveryDays cfg)
                         (to_u64 r) = to_u64 (r + period)).
  { subst period. unfold period_seconds, next_period.
    destruct (weekly_mode (cfg_Weekday cfg)) eqn:Hmode.
    - split; [lia|]. rewrite WEEK_value. apply to_u64_add_l.
    - destruct Hreach as [Hw | Hd]; [discriminate|].
      split; [lia|].
      rewrite DAY_value, to_u32_small
        by (change (2 ^ 32) with 4294967296; lia).
      rewrite to_u64_add_l. f_equal. lia. }
  destruct Hperiod as [Hp Hnext].
  unfold Init_plan.
  rewrite (first_occurrence_computed nowTime (cfg_Weekday cfg)
             (cfg_EveryDays cfg) h m s Hreach).
  fold r. eexists. split; [reflexivity|].
  destruct (build_plan_diffToShutdown nowTime (cfg_Weekday cfg)
              (cfg_EveryDays cfg) (to_u64 r) (cfg_PreAnnounceSeconds cfg))
    as [Hn Hd].
  assert (Hadv : nextResetTime
                   (build_plan nowTime (cfg_Weekday cfg) (cfg_EveryDays cfg)
                      (to_u64 r) (cfg_PreAnnounceSeconds cfg))
                 = to_u64 (r + period)).
  { rewrite Hn.
    rewrite (diff_to_exact r nowTime)
      by (change (2 ^ 32) with 4294967296; lia).
    destruct (Z.ltb_spec (r - nowTime) 10); [exact Hnext | lia]. }
  split; [exact Hadv|]. split.
  - intros Hnow Hfit. rewrite Hadv. apply to_u64_small. lia.
  - rewrite Hd, Hadv. apply diff_to_exact.
    change (2 ^ 32) with 4294967296. lia.
Qed.

(* ------------------------------------------------------------------------- *)
(** ** [Init] *)

Lemma range_checks_pass (configTime : string) (restartDays h m s : Z) (w : World) :
  in_range restartDays h m s ->
  range_checks configTime restartDays h m s w = w.
Proof.
  intros (Hd & Hh & Hm & Hs). unfold range_checks, days_out_of_range.
  destruct (Z.ltb_spec restartDays 1); [lia|].
  destruct (Z.ltb_spec 365 restartDays); [lia|].
  destruct (Z.ltb_spec 23 h); [lia|].
  destruct (Z.leb_spec 60 m); [lia|].
  destruct (Z.leb_spec 60 s); [lia|]. reflexivity.
Qed.

Lemma range_checks_fail (configTime : string) (restartDays h m s : Z) (w : World) :
  days_out_of_range restartDays || (23 <? h) || (60 <=? m) || (60 <=? s) = true ->
  isEnableModule (range_checks configTime restartDays h m s w) = false.
Proof.
  unfold range_checks. intros H.
  destruct (days_out_of_range restartDays); [reflexivity|].
  destruct (23 <? h); [reflexivity|].
  destruct (60 <=? m); [reflexivity|].
  destruct (60 <=? s); [reflexivity|]. discriminate.
Qed.

Lemma range_checks_frame (configTime : string) (restartDays h m s : Z) (w : World) :
  let w' := range_checks configTime restartDays h m s w in
  shutdownMask w' = shutdownMask w /\ scheduler w' = scheduler w /\
  worldShutdownTimer w' = worldShutdownTimer w /\
  startedEvents w' = startedEvents w.
Proof.
  unfold range_checks.
  destruct (days_out_of_range restartDays); [repeat split|].
  destruct (23 <? h); [repeat split|].
  destruct (60 <=? m); [repeat split|].
  destruct (60 <=? s); repeat split.
Qed.

(** With numeric event tokens, lines 143-231 run to the end: pending tasks
    and a pending host shutdown are cancelled, the events are started and
    the pre-announce task is the only one scheduled; the enable flag is
    what the range checks left. *)
Lemma Init_arm_numeric
  (cfg : Config) (nowTime h m s nextResetTime0 : Z) (w : World) :
  numeric_tokens (Tokenize (cfg_StartEvents cfg) " "%char false) ->
  let plan := build_plan nowTime (cfg_Weekday cfg) (cfg_EveryDays cfg)
                nextResetTime0 (cfg_PreAnnounceSeconds cfg) in
  exists w',
    Init_arm cfg nowTime h m s nextResetTime0 w = Some w' /\
    isEnableModule w'
    = isEnableModule (range_checks (cfg_Time cfg) (cfg_EveryDays cfg) h m s w) /\
    scheduler w'
    = [mk_Task (diffToPreAnnounce plan) (preAnnounceSeconds plan)] /\
    worldShutdownTimer w' = None /\
    startedEvents w'
    = startedEvents w
      ++ event_ids (Tokenize (cfg_StartEvents cfg) " "%char false).
Proof.
  intros Hnum plan. unfold Init_arm, StartPersistentGameEvents.
  fold plan.
  pose proof (range_checks_frame (cfg_Time cfg) (cfg_EveryDays cfg) h m s w)
    as Hframe.
  cbv zeta in Hframe. destruct Hframe as (_ & _ & _ & Hev0).
  set (w1 := range_checks (cfg_Time cfg) (cfg_EveryDays cfg) h m s w) in *.
  match goal with
  | |- context [StartEvents_loop ?t ?W] =>
      destruct (StartEvents_loop_numeric t Hnum W)
        as (w' & Hrun & He & _ & Hs & Ht & Hev)
  end.
  rewrite Hrun.
  assert (He' : isEnableModule w' = isEnableModule w1).
  { rewrite He.
    destruct (diff_to nextResetTime0 nowTime <? 10);
      destruct (DAY <? cfg_PreAnnounceSeconds cfg); reflexivity. }
  assert (Hs' : scheduler w' = []).
  { rewrite Hs.
    destruct (diff_to nextResetTime0 nowTime <? 10);
      destruct (DAY <? cfg_PreAnnounceSeconds cfg); reflexivity. }
  assert (Ht' : worldShutdownTimer w' = None).
  { rewrite Ht.
    destruct (diff_to nextResetTime0 nowTime <? 10);
      destruct (DAY <? cfg_PreAnnounceSeconds cfg); reflexivity. }
  assert (Hev' : startedEvents w'
                 = startedEvents w
                   ++ event_ids (Tokenize (cfg_StartEvents cfg) " "%char false)).
  { rewrite Hev, <- Hev0. f_equal.
    destruct (diff_to nextResetTime0 nowTime <? 10);
      destruct (DAY <? cfg_PreAnnounceSeconds cfg); reflexivity. }
  eexists. split; [reflexivity|].
  destruct (String.eqb (cfg_Action cfg) "shutdown");
    cbn [Schedule set_shutdownMask isEnableModule scheduler
         worldShutdownTimer startedEvents];
    rewrite Hs'; repeat split; assumption.
Qed.

(** An enabled configuration with a well-formed time and an accepted
    recurrence reaches line 143. *)
Lemma Init_reaches_arm
  (cfg : Config) (nowTime h m s nextResetTime0 : Z) (w : World) :
  cfg_Enabled cfg = true ->
  config_clock cfg = Some (h, m, s) ->
  first_occurrence nowTime (cfg_Weekday cfg) (cfg_EveryDays cfg) h m s
  = Some nextResetTime0 ->
  Init cfg nowTime w
  = Init_arm cfg nowTime h m s nextResetTime0 (set_isEnableModule w true).
Proof.
  intros Hen Hclock Hfirst. unfold Init, config_clock in *.
  rewrite Hen. cbn [set_isEnableModule isEnableModule negb].
  destruct (Tokenize (cfg_Time cfg) ":"%char false)
    as [|th [|tmin [|ts [|]]]]; try discriminate.
  destruct (StringTo_uint8 th) as [h'|] eqn:Hh; [|discriminate].
  destruct (StringTo_uint8 tmin) as [m'|] eqn:Hm; [|discriminate].
  destruct (StringTo_uint8 ts) as [s'|] eqn:Hs; [|discriminate].
  injection Hclock as -> -> ->.
  cbn [List.length Nat.eqb negb CheckTime forallb token_uint8 nth_error].
  rewrite Hh, Hm, Hs. cbn [andb negb].
  rewrite Hfirst. reflexivity.
Qed.

(** A malformed time string makes [Init] return at once. *)
Lemma Init_malformed_time (cfg : Config) (nowTime : Z) (w : World) :
  cfg_Enabled cfg = true ->
  config_clock cfg = None ->
  Init cfg nowTime w = Some (rejected (IncorrectTime (cfg_Time cfg)) w).
Proof.
  intros Hen Hclock. unfold Init, config_clock, rejected in *.
  rewrite Hen. cbn [set_isEnableModule isEnableModule negb].
  destruct (Tokenize (cfg_Time cfg) ":"%char false)
    as [|th [|tmin [|ts [|]]]]; try reflexivity.
  cbn [List.length Nat.eqb negb CheckTime forallb token_uint8 nth_error].
  destruct (StringTo_uint8 th); [|reflexivity].
  destruct (StringTo_uint8 tmin); [|reflexivity].
  destruct (StringTo_uint8 ts); [discriminate | reflexivity].
Qed.

(** In periodic mode an [EveryDays] outside 1..365 makes [Init] return at
    once. *)
Lemma Init_periodic_days_rejected
  (cfg : Config) (nowTime h m s : Z) (w : World) :
  cfg_Enabled cfg = true ->
  config_clock cfg = Some (h, m, s) ->
  weekly_mode (cfg_Weekday cfg) = false ->
  days_out_of_range (cfg_EveryDays cfg) = true ->
  Init cfg nowTime w = Some (rejected (IncorrectDay (cfg_EveryDays cfg)) w).
Proof.
  intros Hen Hclock Hmode Hdays. unfold Init, config_clock, rejected in *.
  rewrite Hen. cbn [set_isEnableModule isEnableModule negb].
  destruct (Tokenize (cfg_Time cfg) ":"%char false)
    as [|th [|tmin [|ts [|]]]]; try discriminate.
  destruct (StringTo_uint8 th) as [h'|] eqn:Hh; [|discriminate].
  destruct (StringTo_uint8 tmin) as [m'|] eqn:Hm; [|discriminate].
  destruct (StringTo_uint8 ts) as [s'|] eqn:Hs; [|discriminate].
  cbn [List.length Nat.eqb negb CheckTime forallb token_uint8 nth_error].
  rewrite Hh, Hm, Hs. cbn [andb negb].
  unfold first_occurrence. rewrite Hmode, Hdays. reflexivity.
Qed.

(** After an early failure exit nothing is scheduled, cancelled or
    started. *)
Lemma rejected_frame (msg : LogMessage) (w : World) :
  isEnableModule (rejected msg w) = false /\
  scheduler (rejected msg w) = scheduler w /\
  worldShutdownTimer (rejected msg w) = worldShutdownTimer w /\
  startedEvents (rejected msg w) = startedEvents w /\
  shutdownMask (rejected msg w) = shutdownMask w.
Proof. repeat split. Qed.

(** A range failure detected at lines 143-162 clears the flag, and [Init]
    goes on: with numeric event tokens it cancels what was pending, starts
    the events and schedules the pre-announce task. *)
Lemma Init_range_failure_continues
  (cfg : Config) (nowTime h m s nextResetTime0 : Z) (w : World) :
  cfg_Enabled cfg = true ->
  config_clock cfg = Some (h, m, s) ->
  first_occurrence nowTime (cfg_Weekday cfg) (cfg_EveryDays cfg) h m s
  = Some nextResetTime0 ->
  numeric_tokens (Tokenize (cfg_StartEvents cfg) " "%char false) ->
  days_out_of_range (cfg_EveryDays cfg) || (23 <? h) || (60 <=? m) || (60 <=? s)
  = true ->
  let plan := build_plan nowTime (cfg_Weekday cfg) (cfg_EveryDays cfg)
                nextResetTime0 (cfg_PreAnnounceSeconds cfg) in
  exists w',
    Init cfg nowTime w = Some w' /\
    isEnableModule w' = false /\
    scheduler w'
    = [mk_Task (diffToPreAnnounce plan) (preAnnounceSeconds plan)] /\
    worldShutdownTimer w' = None /\
    startedEvents w'
    = startedEvents w
      ++ event_ids (Tokenize (cfg_StartEvents cfg) " "%char false).
Proof.
  intros Hen Hclock Hfirst Hnum Hfail plan.
  rewrite (Init_reaches_arm cfg nowTime h m s nextResetTime0 w Hen Hclock Hfirst).
  destruct (Init_arm_numeric cfg nowTime h m s nextResetTime0
              (set_isEnableModule w true) Hnum)
    as (w' & Hrun & He & Hs & Ht & Hev).
  exists w'. split; [exact Hrun|].
  rewrite He, (range_checks_fail _ _ _ _ _ _ Hfail).
  repeat split; assumption.
Qed.

(** Whenever [Init] reaches a plan and the event tokens are numeric, the
    pre-announce task of that plan is what the scheduler holds afterwards. *)
Lemma Init_schedules_plan
  (cfg : Config) (nowTime h m s : Z) (plan : ShutdownPlan) (w : World) :
  cfg_Enabled cfg = true ->
  config_clock cfg = Some (h, m, s) ->
  numeric_tokens (Tokenize (cfg_StartEvents cfg) " "%char false) ->
  Init_plan cfg nowTime h m s = Some plan ->
  exists w',
    Init cfg nowTime w = Some w' /\
    scheduler w'
    = [mk_Task (diffToPreAnnounce plan) (preAnnounceSeconds plan)] /\
    worldShutdownTimer w' = None.
Proof.
  intros Hen Hclock Hnum Hplan. unfold Init_plan in Hplan.
  destruct (first_occurrence nowTime (cfg_Weekday cfg) (cfg_EveryDays cfg) h m s)
    as [n|] eqn:Hfirst; [|discriminate].
  injection Hplan as <-.
  rewrite (Init_reaches_arm cfg nowTime h m s n w Hen Hclock Hfirst).
  destruct (Init_arm_numeric cfg nowTime h m s n
              (set_isEnableModule w true) Hnum)
    as (w' & Hrun & _ & Hs & Ht & _).
  exists w'. repeat split; assumption.
Qed.

(** While the flag is cleared, [OnUpdate] does not run the scheduler. *)
Lemma OnUpdate_disabled (diff : Z) (w : World) :
  isEnableModule w = false -> OnUpdate diff w = w.
Proof. intros H. unfold OnUpdate. rewrite H. reflexivity. Qed.

(** C3. When the time remaining to the shutdown is less than the
    pre-announce lead time, the plan's lead time is the remaining time and
    the pre-announce task is scheduled with a delay of one second. *)
Theorem Init_short_runway
  (cfg : Config) (nowTime h m s : Z) (plan : ShutdownPlan) (w : World) :
  cfg_Enabled cfg = true ->
  config_clock cfg = Some (h, m, s) ->
  numeric_tokens (Tokenize (cfg_StartEvents cfg) " "%char false) ->
  Init_plan cfg nowTime h m s = Some plan ->
  diffToShutdown plan < clamp_preAnnounce (cfg_PreAnnounceSeconds cfg) ->
  preAnnounceSeconds plan = diffToShutdown plan /\
  diffToPreAnnounce plan = 1 /\
  timeToPreAnnounce plan = to_u32 (to_u32 nowTime + 1) /\
  exists w',
    Init cfg nowTime w = Some w' /\
    scheduler w' = [mk_Task 1 (diffToShutdown plan)].
Proof.
  intros Hen Hclock Hnum Hplan Hshort. unfold Init_plan in Hplan.
  destruct (first_occurrence nowTime (cfg_Weekday cfg) (cfg_EveryDays cfg) h m s)
    as [n|] eqn:Hfirst; [|discriminate].
  injection Hplan as <-.
  destruct (build_plan_collapsed nowTime (cfg_Weekday cfg) (cfg_EveryDays cfg)
              n (cfg_PreAnnounceSeconds cfg) Hshort) as (Hpre & Hdiff & Htime).
  repeat (split; [assumption|]).
  rewrite (Init_reaches_arm cfg nowTime h m s n w Hen Hclock Hfirst).
  destruct (Init_arm_numeric cfg nowTime h m s n
              (set_isEnableModule w true) Hnum)
    as (w' & Hrun & _ & Hs & _).
  exists w'. split; [exact Hrun|].
  rewrite Hs, Hdiff, Hpre. reflexivity.
Qed.

Lemma build_plan_clamped
  (nowTime weekday restartDays nextResetTime0 configured : Z) :
  DAY < configured ->
  build_plan nowTime weekday restartDays nextResetTime0 configured
  = build_plan nowTime weekday restartDays nextResetTime0 HOUR.
Proof.
  intros H. unfold build_plan, clamp_preAnnounce.
  destruct (Z.ltb_spec DAY configured); [|lia].
  change (DAY <? HOUR) with false. cbv iota. reflexivity.
Qed.

(** C8. A configured [PreAnnounce.Seconds] above one day is replaced by
    one hour: [Init] computes the plan of a configured lead time of 3600,
    schedules its pre-announce task and, the configuration being valid
    otherwise, leaves the module enabled. *)
Theorem Init_preAnnounce_clamped
  (cfg : Config) (nowTime h m s : Z) (w : World) :
  cfg_Enabled cfg = true ->
  config_clock cfg = Some (h, m, s) ->
  in_range (cfg_EveryDays cfg) h m s ->
  numeric_tokens (Tokenize (cfg_StartEvents cfg) " "%char false) ->
  DAY < cfg_PreAnnounceSeconds cfg ->
  clamp_preAnnounce (cfg_PreAnnounceSeconds cfg) = 3600 /\
  exists nextResetTime0 w',
    first_occurrence nowTime (cfg_Weekday cfg) (cfg_EveryDays cfg) h m s
    = Some nextResetTime0 /\
    let plan := build_plan nowTime (cfg_Weekday cfg) (cfg_EveryDays cfg)
                  nextResetTime0 3600 in
    Init_plan cfg nowTime h m s = Some plan /\
    Init cfg nowTime w = Some w' /\
    isEnableModule w' = true /\
    scheduler w'
    = [mk_Task (diffToPreAnnounce plan) (preAnnounceSeconds plan)] /\
    preAnnounceSeconds plan <= 3600 /\
    (3600 <= diffToShutdown plan -> preAnnounceSeconds plan = 3600).
Proof.
  intros Hen Hclock Hrange Hnum Hbig.
  split.
  { unfold clamp_preAnnounce.
    destruct (Z.ltb_spec DAY (cfg_PreAnnounceSeconds cfg)); [reflexivity|lia]. }
  destruct (first_occurrence_some nowTime (cfg_Weekday cfg) (cfg_EveryDays cfg)
              h m s (proj1 Hrange)) as [n Hfirst].
  destruct (Init_arm_numeric cfg nowTime h m s n
              (set_isEnableModule w true) Hnum)
    as (w' & Hrun & He & Hs & _).
  exists n, w'. split; [exact Hfirst|]. cbv zeta.
  change 3600 with HOUR.
  rewrite <- (build_plan_clamped nowTime (cfg_Weekday cfg) (cfg_EveryDays cfg)
                n (cfg_PreAnnounceSeconds cfg) Hbig).
  split; [unfold Init_plan; rewrite Hfirst; reflexivity|].
  split; [rewrite (Init_reaches_arm cfg nowTime h m s n w Hen Hclock Hfirst);
          exact Hrun|].
  split; [rewrite He, range_checks_pass by exact Hrange; reflexivity|].
  split; [exact Hs|].
  rewrite (build_plan_clamped nowTime (cfg_Weekday cfg) (cfg_EveryDays cfg)
             n (cfg_PreAnnounceSeconds cfg) Hbig).
  unfold build_plan. cbv zeta.
  change (clamp_preAnnounce HOUR) with 3600.
  runway_cases; cbn [preAnnounceSeconds diffToShutdown]; change HOUR with 3600; lia.
Qed.

(* ------------------------------------------------------------------------- *)
(** ** The calculator: which occurrence is returned *)

Lemma TimeBreakdown_wday_day (time : Z) :
  tm_wday (TimeBreakdown time) = (local_day time + 4) mod 7.
Proof.
  unfold TimeBreakdown.
  destruct (Calendar.civil_from_days (local_day time)) as [[y m] d].
  reflexivity.
Qed.

(** A timestamp is its local day at its clock reading. *)
Lemma clock_time_of_clock (t h m s : Z) :
  tm_clock (TimeBreakdown t) = (h, m, s) ->
  valid_clock h m s /\ t = clock_time (local_day t) h m s.
Proof.
  intros Hc. pose proof (TimeBreakdown_clock t) as H. cbv zeta in H.
  unfold tm_clock in Hc.
  assert (Hh : tm_hour (TimeBreakdown t) = h) by congruence.
  assert (Hm : tm_min (TimeBreakdown t) = m) by congruence.
  assert (Hs : tm_sec (TimeBreakdown t) = s) by congruence.
  rewrite Hh, Hm, Hs in H. destruct H as (? & ? & ? & Hsum).
  split; [unfold valid_clock; lia|].
  unfold clock_time. pose proof (local_time_split t). lia.
Qed.

(** The days [GetNextWeekdayTime] adds: at most seven, leading to the
    requested weekday; seven only if today's target has passed, none only
    if it is still ahead. *)
Lemma daysUntil_of_cases (now weekday h m s : Z) :
  0 <= weekday <= 6 ->
  valid_clock h m s ->
  let du := daysUntil_of (TimeBreakdown now) weekday h m s in
  0 <= du <= 7 /\
  (local_day now + du + 4) mod 7 = weekday /\
  (du = 7 -> h * 3600 + m * 60 + s <= local_second now) /\
  (du = 0 -> local_second now < h * 3600 + m * 60 + s).
Proof.
  intros Hw (Hh & Hm & Hs) du. subst du.
  pose proof (daysUntil_rem now weekday Hw) as Hrem. cbv zeta in Hrem.
  destruct Hrem as [Hrange Hzero].
  pose proof (TimeBreakdown_clock now) as Hc. cbv zeta in Hc.
  destruct Hc as (Hh' & Hm' & Hs' & Hsum).
  pose proof (same_day_test (TimeBreakdown now) h m s) as Htest.
  unfold tm_clock in Htest. rewrite clock_le_seconds in Htest by lia.
  rewrite Hsum in Htest.
  pose proof (TimeBreakdown_wday now) as Hwd.
  pose proof (TimeBreakdown_wday_day now) as Hwday.
  unfold daysUntil_of.
  set (wd := tm_wday (TimeBreakdown now)) in *.
  assert (Hd0 : Z.rem (weekday - wd + 7) 7 = (weekday - wd + 7) mod 7)
    by (apply Z.rem_mod_nonneg; lia).
  set (d0 := Z.rem (weekday - wd + 7) 7) in *.
  pose proof (Z.div_mod (weekday - wd + 7) 7 ltac:(lia)) as Hdm1.
  pose proof (Z.div_mod (local_day now + 4) 7 ltac:(lia)) as Hdm2.
  rewrite <- Hd0 in Hdm1. rewrite <- Hwday in Hdm2.
  destruct (Z.eqb_spec d0 0) as [Hz | Hnz].
  - assert (Hsame : weekday = wd) by (apply Hzero; exact Hz).
    destruct ((h <? tm_hour (TimeBreakdown now))
              || ((tm_hour (TimeBreakdown now) =? h)
                  && (m <? tm_min (TimeBreakdown now)))
              || ((tm_hour (TimeBreakdown now) =? h)
                  && (tm_min (TimeBreakdown now) =? m)
                  && (s <=? tm_sec (TimeBreakdown now)))).
    + split; [lia|]. split.
      * symmetry.
        apply (Z.mod_unique _ 7 ((local_day now + 4) / 7 + 1)); lia.
      * split; [intros _; apply Htest; reflexivity | lia].
    + split; [lia|]. split.
      * symmetry. apply (Z.mod_unique _ 7 ((local_day now + 4) / 7)); lia.
      * split; [lia|]. intros _.
        destruct (Z.lt_ge_cases (local_second now) (h * 3600 + m * 60 + s))
          as [Hlt | Hge]; [exact Hlt|].
        apply Htest in Hge. discriminate.
  - split; [lia|]. split; [|lia].
    symmetry.
    apply (Z.mod_unique _ 7
             ((local_day now + 4) / 7 + 1 - (weekday - wd + 7) / 7)); lia.
Qed.

(** X12. For a weekday in 0..6 and a valid target clock reading, the
    timestamp [GetNextWeekdayTime] returns falls on that weekday and reads
    exactly the target clock. *)
Theorem GetNextWeekdayTime_on_weekday (now weekday h m s : Z) :
  0 <= weekday <= 6 ->
  valid_clock h m s ->
  let r := GetNextWeekdayTime now weekday h m s in
  tm_wday (TimeBreakdown r) = weekday /\
  tm_clock (TimeBreakdown r) = (h, m, s).
Proof.
  intros Hw Hv r. subst r. rewrite GetNextWeekdayTime_unfold.
  destruct (daysUntil_of_cases now weekday h m s Hw Hv) as (_ & Hmod & _).
  split; [|apply clock_time_clock; exact Hv].
  rewrite TimeBreakdown_wday_day, clock_time_day by exact Hv. exact Hmod.
Qed.

(** X13. [GetNextWeekdayTime] returns the earliest occurrence: every
    timestamp after now that falls on the weekday and reads the target
    clock is at or after the result. *)
Theorem GetNextWeekdayTime_is_next (now weekday h m s t : Z) :
  0 <= weekday <= 6 ->
  now < t ->
  tm_wday (TimeBreakdown t) = weekday ->
  tm_clock (TimeBreakdown t) = (h, m, s) ->
  GetNextWeekdayTime now weekday h m s <= t.
Proof.
  intros Hw Hlt Hwd Hclock.
  destruct (clock_time_of_clock t h m s Hclock) as [Hv Ht].
  rewrite GetNextWeekdayTime_unfold.
  destruct (daysUntil_of_cases now weekday h m s Hw Hv)
    as (Hdu & Hmod & Hseven & _).
  set (du := daysUntil_of (TimeBreakdown now) weekday h m s) in *.
  rewrite TimeBreakdown_wday_day in Hwd.
  pose proof (local_time_split now) as Hnow.
  pose proof (local_second_range now) as Hls.
  destruct Hv as (Hh & Hm & Hs).
  rewrite Ht at 1. unfold clock_time in *.
  pose proof (Z.div_mod (local_day now + du + 4) 7 ltac:(lia)) as H1.
  pose proof (Z.div_mod (local_day t + 4) 7 ltac:(lia)) as H2.
  rewrite Hmod in H1. rewrite Hwd in H2.
  assert (Hday : local_day now <= local_day t) by lia.
  destruct (Z.eq_dec du 7) as [H7 | Hn7].
  - specialize (Hseven H7). lia.
  - lia.
Qed.

(** The day [GetNextResetTime] lands on: today only for a one-day period
    whose target is still ahead, [restartDays] days on otherwise. *)
Lemma GetNextResetTime_cases (now restartDays h m s : Z) :
  valid_clock h m s ->
  1 <= restartDays ->
  DAY * restartDays < 2 ^ 32 ->
  (restartDays = 1 /\ local_second now < h * 3600 + m * 60 + s /\
   GetNextResetTime now restartDays h m s = clock_time (local_day now) h m s)
  \/
  ((1 < restartDays \/ h * 3600 + m * 60 + s <= local_second now) /\
   GetNextResetTime now restartDays h m s
   = clock_time (local_day now + restartDays) h m s).
Proof.
  intros (Hh & Hm & Hs) Hdays Hfit.
  rewrite GetNextResetTime_unfold. cbv zeta.
  rewrite to_u32_small by (rewrite DAY_value in *; lia).
  rewrite DAY_value, (Z.mul_comm 86400), clock_time_shift.
  pose proof (local_time_split now) as Hnow.
  destruct (Z.ltb_spec 1 restartDays) as [Hmany | Hone]; cbn [orb].
  - right. split; [left; exact Hmany | reflexivity].
  - destruct (Z.leb_spec (clock_time (local_day now) h m s) now) as [Hle | Hgt].
    + right. split; [right; unfold clock_time in Hle; lia | reflexivity].
    + left. split; [lia|]. split; [unfold clock_time in Hgt; lia | reflexivity].
Qed.

(** X10. With a period of one day, [GetNextResetTime] returns the next
    time the local clock reads the target: it is after now, at most a day
    away, and no later than any timestamp after now with that reading. *)
Theorem GetNextResetTime_daily_is_next (now h m s : Z) :
  valid_clock h m s ->
  let r := GetNextResetTime now 1 h m s in
  now < r /\ r <= now + 86400 /\
  forall t, now < t -> tm_clock (TimeBreakdown t) = (h, m, s) -> r <= t.
Proof.
  intros Hv r. subst r.
  pose proof (local_time_split now) as Hnow.
  pose proof (local_second_range now) as Hls.
  assert (Hcases := GetNextResetTime_cases now 1 h m s Hv ltac:(lia)
                      ltac:(rewrite DAY_value; lia)).
  assert (Hnext : forall t, now < t -> tm_clock (TimeBreakdown t) = (h, m, s) ->
                  local_day now <= local_day t /\
                  t = clock_time (local_day t) h m s /\
                  (h * 3600 + m * 60 + s <= local_second now ->
                   local_day now + 1 <= local_day t)).
  { intros t Hlt Hc. destruct (clock_time_of_clock t h m s Hc) as [Hv' Ht].
    destruct Hv' as (Hh & Hm & Hs). unfold clock_time in Ht.
    split; [lia|]. split; [exact Ht|]. lia. }
  destruct Hv as (Hh & Hm & Hs).
  destruct Hcases as [(_ & Hahead & ->) | ([Habs | Hpast] & ->)]; [| lia |].
  - unfold clock_time. split; [lia|]. split; [lia|].
    intros t Hlt Hc. destruct (Hnext t Hlt Hc) as (Hd & Ht & _).
    rewrite Ht at 1. unfold clock_time. lia.
  - unfold clock_time. split; [lia|]. split; [lia|].
    intros t Hlt Hc. destruct (Hnext t Hlt Hc) as (_ & Ht & Hd).
    specialize (Hd Hpast). rewrite Ht at 1. unfold clock_time. lia.
Qed.

(** X11. With a period of more than one day (of a length that fits 32
    bits) the result is more than [restartDays - 1] and less than
    [restartDays + 1] days after now: today's occurrence is skipped even
    while it is still ahead. *)
Theorem GetNextResetTime_period_distance (now restartDays h m s : Z) :
  valid_clock h m s ->
  1 < restartDays ->
  DAY * restartDays < 2 ^ 32 ->
  let r := GetNextResetTime now restartDays h m s in
  now + (restartDays - 1) * 86400 < r /\ r < now + (restartDays + 1) * 86400.
Proof.
  intros Hv Hdays Hfit r. subst r.
  rewrite (GetNextResetTime_advances now restartDays h m s Hdays Hfit).
  pose proof (local_time_split now) as Hnow.
  pose proof (local_second_range now) as Hls.
  destruct Hv as (Hh & Hm & Hs). unfold clock_time. lia.
Qed.

(* ------------------------------------------------------------------------- *)
(** ** The plan: occurrence, remaining time and countdown *)

Lemma diff_to_mod_any (nextResetTime nowTime : Z) :
  diff_to nextResetTime nowTime = (nextResetTime - nowTime) mod 2 ^ 32.
Proof.
  unfold diff_to, to_u32, to_u64.
  rewrite mod_u64_u32. apply Zminus_mod_idemp_r.
Qed.

(** From an occurrence [r] ahead of now to the plan: the plan keeps [r],
    or moves one period [period] on when [r] is less than 10 seconds
    away; the remaining time is exact and at least 10 seconds. *)
Lemma build_plan_occurrence
  (nowTime weekday restartDays r configured period : Z) :
  0 < r - nowTime ->
  10 <= period ->
  r - nowTime + period < 2 ^ 32 ->
  next_period weekday restartDays (to_u64 r) = to_u64 (r + period) ->
  let plan := build_plan nowTime weekday restartDays (to_u64 r) configured in
  exists occurrence,
    (10 <= r - nowTime /\ occurrence = r
     \/ r - nowTime < 10 /\ occurrence = r + period) /\
    nextResetTime plan = to_u64 occurrence /\
    diffToShutdown plan = occurrence - nowTime /\
    10 <= occurrence - nowTime.
Proof.
  intros Hpos Hper Hfit Hnext plan.
  destruct (build_plan_diffToShutdown nowTime weekday restartDays (to_u64 r)
              configured) as [Hn Hd].
  fold plan in Hn, Hd. rewrite Hd, Hn.
  rewrite (diff_to_exact r nowTime) by lia.
  destruct (Z.ltb_spec (r - nowTime) 10) as [Hnear | Hfar].
  - exists (r + period). rewrite Hnext.
    rewrite (diff_to_exact (r + period) nowTime) by lia.
    split; [right; split; [exact Hnear | reflexivity]|].
    repeat split; lia.
  - exists r. rewrite (diff_to_exact r nowTime) by lia.
    split; [left; split; [exact Hfar | reflexivity]|].
    repeat split; lia.
Qed.

(** X8. For a valid target clock reading, the plan [Init] computes names
    an occurrence that reads the target clock (on the configured weekday
    in weekly mode), and its remaining time is the exact distance from now
    to that occurrence, at least 10 seconds and at most 366 days. *)
Theorem Init_plan_occurrence
  (cfg : Config) (nowTime h m s : Z) (plan : ShutdownPlan) :
  valid_clock h m s ->
  Init_plan cfg nowTime h m s = Some plan ->
  exists occurrence,
    nextResetTime plan = to_u64 occurrence /\
    tm_clock (TimeBreakdown occurrence) = (h, m, s) /\
    (weekly_mode (cfg_Weekday cfg) = true ->
     tm_wday (TimeBreakdown occurrence) = cfg_Weekday cfg) /\
    diffToShutdown plan = occurrence - nowTime /\
    10 <= occurrence - nowTime <= 366 * 86400.
Proof.
  intros Hv Hplan. unfold Init_plan in Hplan.
  destruct (first_occurrence nowTime (cfg_Weekday cfg) (cfg_EveryDays cfg) h m s)
    as [n|] eqn:Hfirst; [|discriminate].
  injection Hplan as <-.
  pose proof (local_time_split nowTime) as Hnow.
  pose proof (local_second_range nowTime) as Hls.
  pose proof Hv as (Hh & Hm & Hs).
  unfold first_occurrence in Hfirst.
  destruct (weekly_mode (cfg_Weekday cfg)) eqn:Hmode.
  - (* weekly mode *)
    injection Hfirst as <-.
    assert (Hw : 0 <= cfg_Weekday cfg <= 6).
    { unfold weekly_mode in Hmode. apply andb_true_iff in Hmode as [H1 H2].
      apply Z.leb_le in H1, H2. lia. }
    destruct (daysUntil_of_cases nowTime (cfg_Weekday cfg) h m s Hw Hv)
      as (Hdu & Hmod & Hseven & Hzero).
    rewrite GetNextWeekdayTime_unfold.
    set (du := daysUntil_of (TimeBreakdown nowTime) (cfg_Weekday cfg) h m s) in *.
    set (r := clock_time (local_day nowTime + du) h m s).
    assert (Hr : 0 < r - nowTime <= 7 * 86400).
    { subst r. unfold clock_time.
      destruct (Z.eq_dec du 7) as [H7 | Hn7]; [specialize (Hseven H7); lia|].
      destruct (Z.eq_dec du 0) as [H0 | Hn0]; [specialize (Hzero H0); lia|].
      lia. }
    destruct (build_plan_occurrence nowTime (cfg_Weekday cfg) (cfg_EveryDays cfg)
                r (cfg_PreAnnounceSeconds cfg) 604800)
      as (occ & Hocc & Hn & Hd & Hb).
    + lia.
    + lia.
    + change (2 ^ 32) with 4294967296. lia.
    + unfold next_period. rewrite Hmode, WEEK_value. apply to_u64_add_l.
    + exists occ. split; [exact Hn|].
      assert (Hday : occ = r
                     \/ occ = clock_time (local_day nowTime + du + 7) h m s).
      { destruct Hocc as [[_ ->] | [_ ->]]; [left; reflexivity | right].
        subst r. unfold clock_time. lia. }
      split.
      { destruct Hday as [-> | ->]; apply clock_time_clock; exact Hv. }
      split.
      { intros _. rewrite TimeBreakdown_wday_day.
        destruct Hday as [-> | ->]; [subst r|];
          rewrite clock_time_day by exact Hv; [exact Hmod|].
        replace (local_day nowTime + du + 7 + 4)
          with (local_day nowTime + du + 4 + 1 * 7) by lia.
        rewrite Z.mod_add by lia. exact Hmod. }
      split; [exact Hd|].
      destruct Hocc as [[_ ->] | [Hnear ->]]; lia.
  - (* periodic mode *)
    unfold days_out_of_range in Hfirst.
    destruct (Z.ltb_spec (cfg_EveryDays cfg) 1) as [|Hlo]; [discriminate|].
    destruct (Z.ltb_spec 365 (cfg_EveryDays cfg)) as [|Hhi]; [discriminate|].
    injection Hfirst as <-.
    set (days := cfg_EveryDays cfg) in *.
    assert (Hfit : DAY * days < 2 ^ 32)
      by (rewrite DAY_value; change (2 ^ 32) with 4294967296; lia).
    assert (Hr : exists k, 0 <= k <= days /\
                 GetNextResetTime nowTime days h m s
                 = clock_time (local_day nowTime + k) h m s /\
                 0 < GetNextResetTime nowTime days h m s - nowTime
                 /\ GetNextResetTime nowTime days h m s - nowTime
                    < (days + 1) * 86400 /\
                 (GetNextResetTime nowTime days h m s - nowTime < 10 ->
                  days = 1)).
    { destruct (GetNextResetTime_cases nowTime days h m s Hv Hlo Hfit)
        as [(H1 & Hahead & ->) | (Hwhy & ->)].
      - exists 0. rewrite Z.add_0_r. unfold clock_time.
        repeat split; lia.
      - exists days. unfold clock_time.
        repeat split; lia. }
    destruct Hr as (k & Hk & Hrk & Hpos & Hup & Honly).
    set (r := GetNextResetTime nowTime days h m s) in *.
    destruct (build_plan_occurrence nowTime (cfg_Weekday cfg) days
                r (cfg_PreAnnounceSeconds cfg) (days * 86400))
      as (occ & Hocc & Hn & Hd & Hb).
    + lia.
    + lia.
    + change (2 ^ 32) with 4294967296. lia.
    + unfold next_period. rewrite Hmode, DAY_value.
      rewrite to_u32_small by (change (2 ^ 32) with 4294967296; lia).
      rewrite to_u64_add_l. f_equal. lia.
    + exists occ. split; [exact Hn|].
      assert (Hday : occ = clock_time (local_day nowTime + k) h m s
                     \/ occ = clock_time (local_day nowTime + k + days) h m s).
      { destruct Hocc as [[_ ->] | [_ ->]]; [left; exact Hrk | right].
        rewrite Hrk. unfold clock_time. lia. }
      split.
      { destruct Hday as [-> | ->]; apply clock_time_clock; exact Hv. }
      split; [discriminate|].
      split; [exact Hd|].
      destruct Hocc as [[_ ->] | [Hnear ->]]; [lia|].
      specialize (Honly Hnear). lia.
Qed.

(** X9. With a non-negative configured lead time, the delay of the
    pre-announce task plus the countdown it starts equals the time
    remaining to the shutdown, or exceeds it by the one second of the
    collapsed lead; and the logged pre-announce time is now plus that
    delay in 32 bits. *)
Theorem build_plan_countdown
  (nowTime weekday restartDays nextResetTime0 configured : Z) :
  0 <= configured ->
  let plan :=
    build_plan nowTime weekday restartDays nextResetTime0 configured in
  diffToPreAnnounce plan + preAnnounceSeconds plan
  = diffToShutdown plan
    + (if diffToShutdown plan <? clamp_preAnnounce configured then 1 else 0) /\
  0 <= diffToPreAnnounce plan /\
  timeToPreAnnounce plan = to_u32 (nowTime + diffToPreAnnounce plan).
Proof.
  clear gmtoff eventDescription scheduler_Update.
  intros Hconf plan.
  destruct (build_plan_diffToShutdown nowTime weekday restartDays
              nextResetTime0 configured) as [_ Hd].
  fold plan in Hd. rewrite diff_to_mod_any in Hd.
  assert (Hclamp : 0 <= clamp_preAnnounce configured).
  { unfold clamp_preAnnounce.
    destruct (DAY <? configured); [rewrite HOUR_value|]; lia. }
  revert Hd. subst plan. unfold build_plan. cbv zeta.
  set (N := if diff_to nextResetTime0 nowTime <? 10
            then next_period weekday restartDays nextResetTime0
            else nextResetTime0).
  set (D := if diff_to nextResetTime0 nowTime <? 10
            then diff_to N nowTime
            else diff_to nextResetTime0 nowTime).
  set (p := clamp_preAnnounce configured) in *.
  destruct (Z.ltb_spec D p) as [Hlt | Hge];
    cbn [nextResetTime diffToShutdown timeToPreAnnounce diffToPreAnnounce
         preAnnounceSeconds]; intros Hd.
  - destruct (Z.ltb_spec D p); [|lia].
    split; [lia|]. split; [lia|].
    unfold to_u32. apply Zplus_mod_idemp_l.
  - destruct (Z.ltb_spec D p); [lia|].
    unfold to_u32 in *. change (2 ^ 32) with 4294967296 in *.
    assert (Hpre : ((N mod 4294967296 - p) mod 4294967296
                    - nowTime mod 4294967296) mod 4294967296 = D - p)
      by (Z.div_mod_to_equations; lia).
    rewrite Hpre. split; [lia|]. split; [lia|].
    Z.div_mod_to_equations; lia.
Qed.

(* ------------------------------------------------------------------------- *)
(** ** [StartPersistentGameEvents]: effect and blank lists *)

Lemma string_append_nonempty (tok : string) (c : ascii) :
  string_empty (tok ++ String c EmptyString) = false.
Proof. destruct tok; reflexivity. Qed.

(** Without [keepEmpty] no token is empty. *)
Lemma Tokenize_from_nonempty (sep : ascii) (str : string) :
  forall tok,
    Forall (fun token => string_empty token = false)
           (Tokenize_from sep false str tok).
Proof.
  induction str as [|c rest IH]; intros tok; cbn [Tokenize_from].
  - unfold push_token. cbn [orb].
    destruct (string_empty tok) eqn:He; cbn [negb]; [constructor|].
    constructor; [exact He | constructor].
  - destruct (Ascii.eqb c sep).
    + apply Forall_app. split; [|apply IH].
      unfold push_token. cbn [orb].
      destruct (string_empty tok) eqn:He; cbn [negb]; [constructor|].
      constructor; [exact He | constructor].
    + apply IH.
Qed.

(** A string of separators holds no token. *)
Lemma Tokenize_only_separators (sep : ascii) (str : string) :
  string_forall (fun c => Ascii.eqb c sep) str = true ->
  Tokenize str sep false = [].
Proof.
  unfold Tokenize. induction str as [|c rest IH]; intros Hall.
  - reflexivity.
  - cbn [string_forall] in Hall. apply andb_true_iff in Hall as [Hc Hrest].
    cbn [Tokenize_from]. rewrite Hc. cbn. apply IH. exact Hrest.
Qed.

(** A non-empty numeric token names exactly one event. *)
Lemma event_ids_length (tokens : list string) :
  numeric_tokens tokens ->
  Forall (fun token => string_empty token = false) tokens ->
  List.length (event_ids tokens) = List.length tokens.
Proof.
  induction tokens as [|token rest IH]; intros Hnum Hne; [reflexivity|].
  apply numeric_tokens_cons in Hnum as [Hhd Htl].
  inversion Hne as [|? ? Hhe Hte]; subst.
  destruct (Hhd Hhe) as [eventId Hid].
  cbn [event_ids flat_map]. rewrite Hid. cbn [app List.length].
  f_equal. apply IH; assumption.
Qed.

(** The loop on numeric tokens, as one equation. *)
Lemma StartEvents_loop_effect (tokens : list string) :
  numeric_tokens tokens ->
  forall w,
    StartEvents_loop tokens w
    = Some (mk_World (isEnableModule w) (shutdownMask w) (scheduler w)
              (worldShutdownTimer w)
              (startedEvents w ++ event_ids tokens)
              (logged w
               ++ map (fun eventId =>
                         (LOG_INFO,
                          StartingEvent (eventDescription eventId) eventId))
                      (event_ids tokens))).
Proof.
  induction tokens as [|token rest IH]; intros Hnum w.
  - cbn. rewrite !app_nil_r. destruct w; reflexivity.
  - apply numeric_tokens_cons in Hnum as [Hhd Htl].
    cbn [StartEvents_loop event_ids flat_map].
    destruct (string_empty token) eqn:Hempty.
    + unfold StringTo_uint32.
      rewrite (StringTo_unsigned_empty 32 token Hempty). cbn [app].
      apply (IH Htl w).
    + destruct (Hhd eq_refl) as [eventId Hid]. rewrite Hid.
      rewrite (IH Htl). cbn [LOG StartEvent isEnableModule shutdownMask
                             scheduler worldShutdownTimer startedEvents logged].
      rewrite map_app, <- !app_assoc. reflexivity.
Qed.

(** X14. When every token of [StartEvents] converts to [uint32],
    [StartPersistentGameEvents] starts one event per token, in the order
    of the configuration string, logs one line per event, and changes
    nothing else. *)
Theorem StartPersistentGameEvents_effect (cfg : Config) (w : World) :
  let tokens := Tokenize (cfg_StartEvents cfg) " "%char false in
  numeric_tokens tokens ->
  StartPersistentGameEvents cfg w
  = Some (mk_World (isEnableModule w) (shutdownMask w) (scheduler w)
            (worldShutdownTimer w)
            (startedEvents w ++ event_ids tokens)
            (logged w
             ++ map (fun eventId =>
                       (LOG_INFO,
                        StartingEvent (eventDescription eventId) eventId))
                    (event_ids tokens)))
  /\ List.length (event_ids tokens) = List.length tokens.
Proof.
  intros tokens Hnum. split.
  - unfold StartPersistentGameEvents. fold tokens.
    apply StartEvents_loop_effect. exact Hnum.
  - apply event_ids_length; [exact Hnum|].
    apply Tokenize_from_nonempty.
Qed.

(** X15. An empty [StartEvents], or one made of spaces only, makes
    [StartPersistentGameEvents] return the world unchanged. *)
Theorem StartPersistentGameEvents_blank (cfg : Config) (w : World) :
  string_forall (fun c => Ascii.eqb c " "%char) (cfg_StartEvents cfg) = true ->
  StartPersistentGameEvents cfg w = Some w.
Proof.
  intros Hblank. unfold StartPersistentGameEvents.
  rewrite (Tokenize_only_separators _ _ Hblank). reflexivity.
Qed.

(* ------------------------------------------------------------------------- *)
(** ** [Init]: exits, enable flag, undefined runs, reload *)

Lemma Init_disabled (cfg : Config) (nowTime : Z) (w : World) :
  cfg_Enabled cfg = false ->
  Init cfg nowTime w = Some (set_isEnableModule w false).
Proof. intros Hen. unfold Init. rewrite Hen. reflexivity. Qed.

Lemma first_occurrence_none (nowTime weekday restartDays h m s : Z) :
  first_occurrence nowTime weekday restartDays h m s = None ->
  weekly_mode weekday = false /\ days_out_of_range restartDays = true.
Proof.
  unfold first_occurrence.
  destruct (weekly_mode weekday); [discriminate|].
  destruct (days_out_of_range restartDays); [split; reflexivity | discriminate].
Qed.

Lemma days_out_of_range_spec (restartDays : Z) :
  days_out_of_range restartDays = true <-> ~ 1 <= restartDays <= 365.
Proof.
  unfold days_out_of_range. rewrite orb_true_iff, !Z.ltb_lt. lia.
Qed.

(** The flag after the range checks. *)
Lemma range_checks_flag (configTime : string) (restartDays h m s : Z) (w : World) :
  isEnableModule (range_checks configTime restartDays h m s w) = true <->
  isEnableModule w = true /\ in_range restartDays h m s.
Proof.
  clear gmtoff eventDescription scheduler_Update.
  unfold range_checks, in_range.
  destruct (days_out_of_range restartDays) eqn:Hd.
  { apply days_out_of_range_spec in Hd. cbn. split; [discriminate | tauto]. }
  assert (Hd' : 1 <= restartDays <= 365).
  { destruct (Z_le_dec 1 restartDays); destruct (Z_le_dec restartDays 365);
      try lia;
      assert (days_out_of_range restartDays = true)
        by (apply days_out_of_range_spec; lia); congruence. }
  destruct (Z.ltb_spec 23 h); [cbn; split; [discriminate | lia]|].
  destruct (Z.leb_spec 60 m); [cbn; split; [discriminate | lia]|].
  destruct (Z.leb_spec 60 s); [cbn; split; [discriminate | lia]|].
  split; [intros Hw; split; [exact Hw | lia] | tauto].
Qed.

(** A completed run of lines 143-231 met numeric tokens. *)
Lemma Init_arm_some
  (cfg : Config) (nowTime h m s nextResetTime0 : Z) (w w' : World) :
  Init_arm cfg nowTime h m s nextResetTime0 w = Some w' ->
  numeric_tokens (Tokenize (cfg_StartEvents cfg) " "%char false).
Proof.
  unfold Init_arm, StartPersistentGameEvents. intros Hrun.
  match type of Hrun with
  | context [StartEvents_loop ?t ?W] =>
      destruct (StartEvents_loop t W) as [w1|] eqn:Hloop; [|discriminate]
  end.
  exact (StartEvents_loop_some _ _ _ Hloop).
Qed.

Lemma Init_arm_none
  (cfg : Config) (nowTime h m s nextResetTime0 : Z) (w : World) :
  Init_arm cfg nowTime h m s nextResetTime0 w = None <->
  ~ numeric_tokens (Tokenize (cfg_StartEvents cfg) " "%char false).
Proof.
  split.
  - intros Hnone Hnum.
    destruct (Init_arm_numeric cfg nowTime h m s nextResetTime0 w Hnum)
      as (w' & Hrun & _).
    congruence.
  - intros Hnot.
    destruct (Init_arm cfg nowTime h m s nextResetTime0 w) as [w'|] eqn:Hrun;
      [|reflexivity].
    exfalso. apply Hnot. exact (Init_arm_some _ _ _ _ _ _ _ _ Hrun).
Qed.

(** The mask a completed run of lines 143-231 leaves. *)
Lemma Init_arm_mask
  (cfg : Config) (nowTime h m s nextResetTime0 : Z) (w w' : World) :
  Init_arm cfg nowTime h m s nextResetTime0 w = Some w' ->
  shutdownMask w'
  = if String.eqb (cfg_Action cfg) "shutdown"
    then SHUTDOWN_MASK_IDLE else SHUTDOWN_MASK_RESTART.
Proof.
  unfold Init_arm. intros Hrun.
  destruct (StartPersistentGameEvents cfg _) as [w1|]; [|discriminate].
  injection Hrun as <-.
  destruct (String.eqb (cfg_Action cfg) "shutdown"); reflexivity.
Qed.

(** X1. With [Enabled] off, [Init] only clears the enable flag: pending
    tasks, a running host countdown, started events and the log stay as
    they were, and [OnUpdate] no longer runs the scheduler. *)
Theorem Init_disabled_inert (cfg : Config) (nowTime : Z) (w : World) :
  cfg_Enabled cfg = false ->
  exists w',
    Init cfg nowTime w = Some w' /\
    isEnableModule w' = false /\
    shutdownMask w' = shutdownMask w /\
    scheduler w' = scheduler w /\
    worldShutdownTimer w' = worldShutdownTimer w /\
    startedEvents w' = startedEvents w /\
    logged w' = logged w /\
    forall diff, OnUpdate diff w' = w'.
Proof.
  intros Hen. exists (set_isEnableModule w false).
  split; [apply Init_disabled; exact Hen|].
  repeat split.
Qed.

(** X2. A [Time] option that is not three tokens each converting to
    [uint8] makes [Init] clear the flag, log one error and return:
    nothing is scheduled, cancelled or started. *)
Theorem Init_malformed_time_inert_exit (cfg : Config) (nowTime : Z) (w : World) :
  cfg_Enabled cfg = true ->
  config_clock cfg = None ->
  exists w',
    Init cfg nowTime w = Some w' /\
    isEnableModule w' = false /\
    shutdownMask w' = shutdownMask w /\
    scheduler w' = scheduler w /\
    worldShutdownTimer w' = worldShutdownTimer w /\
    startedEvents w' = startedEvents w /\
    logged w' = logged w ++ [(LOG_ERROR, IncorrectTime (cfg_Time cfg))].
Proof.
  intros Hen Hclock. exists (rejected (IncorrectTime (cfg_Time cfg)) w).
  split; [apply Init_malformed_time; assumption|].
  repeat split.
Qed.

(** X3. In periodic mode an [EveryDays] outside 1..365 makes [Init] clear
    the flag, log one error and return before anything is scheduled,
    cancelled or started. *)
Theorem Init_periodic_days_inert_exit
  (cfg : Config) (nowTime h m s : Z) (w : World) :
  cfg_Enabled cfg = true ->
  config_clock cfg = Some (h, m, s) ->
  weekly_mode (cfg_Weekday cfg) = false ->
  ~ 1 <= cfg_EveryDays cfg <= 365 ->
  exists w',
    Init cfg nowTime w = Some w' /\
    isEnableModule w' = false /\
    shutdownMask w' = shutdownMask w /\
    scheduler w' = scheduler w /\
    worldShutdownTimer w' = worldShutdownTimer w /\
    startedEvents w' = startedEvents w /\
    logged w' = logged w ++ [(LOG_ERROR, IncorrectDay (cfg_EveryDays cfg))].
Proof.
  intros Hen Hclock Hmode Hdays.
  exists (rejected (IncorrectDay (cfg_EveryDays cfg)) w).
  split.
  - apply (Init_periodic_days_rejected cfg nowTime h m s); try assumption.
    apply days_out_of_range_spec. exact Hdays.
  - repeat split.
Qed.

(** X4. Whenever [Init] completes, the module is left enabled exactly
    when [Enabled] is on, the time is well-formed and [EveryDays], hour,
    minute and second are all in range. *)
Theorem Init_enabled_iff (cfg : Config) (nowTime : Z) (w w' : World) :
  Init cfg nowTime w = Some w' ->
  (isEnableModule w' = true <->
   cfg_Enabled cfg = true /\
   exists h m s,
     config_clock cfg = Some (h, m, s) /\ in_range (cfg_EveryDays cfg) h m s).
Proof.
  clear scheduler_Update.
  intros Hrun.
  destruct (cfg_Enabled cfg) eqn:Hen.
  - destruct (config_clock cfg) as [[[h m] s]|] eqn:Hclock.
    + destruct (first_occurrence nowTime (cfg_Weekday cfg) (cfg_EveryDays cfg)
                  h m s) as [n|] eqn:Hfirst.
      * rewrite (Init_reaches_arm cfg nowTime h m s n w Hen Hclock Hfirst)
          in Hrun.
        pose proof (Init_arm_some _ _ _ _ _ _ _ _ Hrun) as Hnum.
        destruct (Init_arm_numeric cfg nowTime h m s n
                    (set_isEnableModule w true) Hnum)
          as (w1 & Hrun1 & He & _).
        assert (w1 = w') by congruence. subst w1.
        rewrite He, range_checks_flag. cbn [set_isEnableModule isEnableModule].
        split.
        -- intros [_ Hr]. split; [reflexivity|]. exists h, m, s.
           split; [reflexivity | exact Hr].
        -- intros [_ (h' & m' & s' & Hc & Hr)].
           injection Hc as <- <- <-. split; [reflexivity | exact Hr].
      * destruct (first_occurrence_none _ _ _ _ _ _ Hfirst) as [Hmode Hdays].
        rewrite (Init_periodic_days_rejected cfg nowTime h m s w Hen Hclock
                   Hmode Hdays) in Hrun.
        injection Hrun as <-. cbn.
        apply days_out_of_range_spec in Hdays.
        split; [discriminate|].
        intros [_ (h' & m' & s' & _ & Hr)]. unfold in_range in Hr. tauto.
    + rewrite (Init_malformed_time cfg nowTime w Hen Hclock) in Hrun.
      injection Hrun as <-. cbn.
      split; [discriminate|].
      intros [_ (h' & m' & s' & Hc & _)]. discriminate.
  - rewrite (Init_disabled cfg nowTime w Hen) in Hrun.
    injection Hrun as <-. cbn.
    split; [discriminate | intros [H _]; discriminate].
Qed.

(** X5. [Init] has no defined result exactly when it reaches
    [StartPersistentGameEvents] (enabled, well-formed time, accepted
    recurrence) with a token that does not convert to [uint32]; the
    dereferences of the hour, minute and second optionals never fail. *)
Theorem Init_undefined_iff (cfg : Config) (nowTime : Z) (w : World) :
  Init cfg nowTime w = None <->
  cfg_Enabled cfg = true /\
  (exists h m s n,
     config_clock cfg = Some (h, m, s) /\
     first_occurrence nowTime (cfg_Weekday cfg) (cfg_EveryDays cfg) h m s
     = Some n) /\
  ~ numeric_tokens (Tokenize (cfg_StartEvents cfg) " "%char false).
Proof.
  split.
  - intros Hnone.
    destruct (cfg_Enabled cfg) eqn:Hen;
      [|rewrite (Init_disabled cfg nowTime w Hen) in Hnone; discriminate].
    destruct (config_clock cfg) as [[[h m] s]|] eqn:Hclock;
      [|rewrite (Init_malformed_time cfg nowTime w Hen Hclock) in Hnone;
        discriminate].
    destruct (first_occurrence nowTime (cfg_Weekday cfg) (cfg_EveryDays cfg)
                h m s) as [n|] eqn:Hfirst.
    + rewrite (Init_reaches_arm cfg nowTime h m s n w Hen Hclock Hfirst)
        in Hnone.
      split; [reflexivity|].
      split; [exists h, m, s, n; split; [reflexivity | exact Hfirst]|].
      apply (Init_arm_none cfg nowTime h m s n (set_isEnableModule w true)).
      exact Hnone.
    + destruct (first_occurrence_none _ _ _ _ _ _ Hfirst) as [Hmode Hdays].
      rewrite (Init_periodic_days_rejected cfg nowTime h m s w Hen Hclock
                 Hmode Hdays) in Hnone.
      discriminate.
  - intros (Hen & (h & m & s & n & Hclock & Hfirst) & Hnot).
    rewrite (Init_reaches_arm cfg nowTime h m s n w Hen Hclock Hfirst).
    apply Init_arm_none. exact Hnot.
Qed.

(** X6. Whatever was pending, a run of [Init] that reaches a plan with
    numeric event tokens leaves the scheduler holding exactly the
    pre-announce task of that plan, the host countdown cancelled, and the
    configured events started after those already started. *)
Theorem Init_replaces_pending
  (cfg : Config) (nowTime h m s : Z) (plan : ShutdownPlan) (w : World) :
  cfg_Enabled cfg = true ->
  config_clock cfg = Some (h, m, s) ->
  numeric_tokens (Tokenize (cfg_StartEvents cfg) " "%char false) ->
  Init_plan cfg nowTime h m s = Some plan ->
  exists w',
    Init cfg nowTime w = Some w' /\
    scheduler w'
    = [mk_Task (diffToPreAnnounce plan) (preAnnounceSeconds plan)] /\
    worldShutdownTimer w' = None /\
    startedEvents w'
    = startedEvents w
      ++ event_ids (Tokenize (cfg_StartEvents cfg) " "%char false).
Proof.
  intros Hen Hclock Hnum Hplan. unfold Init_plan in Hplan.
  destruct (first_occurrence nowTime (cfg_Weekday cfg) (cfg_EveryDays cfg) h m s)
    as [n|] eqn:Hfirst; [|discriminate].
  injection Hplan as <-.
  rewrite (Init_reaches_arm cfg nowTime h m s n w Hen Hclock Hfirst).
  destruct (Init_arm_numeric cfg nowTime h m s n
              (set_isEnableModule w true) Hnum)
    as (w' & Hrun & _ & Hs & Ht & Hev).
  exists w'. cbn [set_isEnableModule startedEvents] in Hev.
  repeat split; assumption.
Qed.

(** X7. A run of [Init] that gets past the recurrence selection and
    completes selects the idle-shutdown mask exactly when [Action] is the
    string "shutdown"; any other value selects restart. *)
Theorem Init_shutdownMask
  (cfg : Config) (nowTime h m s n : Z) (w w' : World) :
  cfg_Enabled cfg = true ->
  config_clock cfg = Some (h, m, s) ->
  first_occurrence nowTime (cfg_Weekday cfg) (cfg_EveryDays cfg) h m s
  = Some n ->
  Init cfg nowTime w = Some w' ->
  (cfg_Action cfg = "shutdown"%string ->
   shutdownMask w' = SHUTDOWN_MASK_IDLE) /\
  (cfg_Action cfg <> "shutdown"%string ->
   shutdownMask w' = SHUTDOWN_MASK_RESTART).
Proof.
  intros Hen Hclock Hfirst Hrun.
  rewrite (Init_reaches_arm cfg nowTime h m s n w Hen Hclock Hfirst) in Hrun.
  rewrite (Init_arm_mask _ _ _ _ _ _ _ _ Hrun).
  destruct (String.eqb_spec (cfg_Action cfg) "shutdown") as [Heq | Hne].
  - split; [reflexivity | intros Hn; contradiction].
  - split; [intros He; contradiction | reflexivity].
Qed.

(* ------------------------------------------------------------------------- *)
(** ** The calculator called at an occurrence *)

(** X16. Called at its own result, the daily [GetNextResetTime] returns
    the occurrence one day later: an occurrence is never returned for a
    now equal to it. *)
Theorem GetNextResetTime_daily_iterate (now h m s : Z) :
  valid_clock h m s ->
  let r := GetNextResetTime now 1 h m s in
  GetNextResetTime r 1 h m s = r + 86400.
Proof.
  intros Hv r.
  assert (Hfit : DAY * 1 < 2 ^ 32) by (rewrite DAY_value; lia).
  assert (Hr : exists day, r = clock_time day h m s).
  { subst r.
    destruct (GetNextResetTime_cases now 1 h m s Hv ltac:(lia) Hfit)
      as [(_ & _ & ->) | (_ & ->)]; eexists; reflexivity. }
  destruct Hr as [day Hr]. rewrite Hr.
  destruct (GetNextResetTime_cases (clock_time day h m s) 1 h m s Hv
              ltac:(lia) Hfit) as [(_ & Hahead & _) | (_ & ->)].
  - rewrite (clock_time_second day h m s Hv) in Hahead. lia.
  - rewrite (clock_time_day day h m s Hv). unfold clock_time. lia.
Qed.

(** X17. Called at its own result, [GetNextWeekdayTime] returns the
    occurrence seven days later. *)
Theorem GetNextWeekdayTime_iterate (now weekday h m s : Z) :
  0 <= weekday <= 6 ->
  valid_clock h m s ->
  let r := GetNextWeekdayTime now weekday h m s in
  GetNextWeekdayTime r weekday h m s = r + 7 * 86400.
Proof.
  intros Hw Hv r.
  destruct (daysUntil_of_cases now weekday h m s Hw Hv) as (_ & Hmod & _).
  assert (Hr : r = clock_time
                     (local_day now
                      + daysUntil_of (TimeBreakdown now) weekday h m s) h m s)
    by (subst r; apply GetNextWeekdayTime_unfold).
  set (day := local_day now
              + daysUntil_of (TimeBreakdown now) weekday h m s) in *.
  rewrite Hr, GetNextWeekdayTime_unfold.
  destruct (daysUntil_of_cases (clock_time day h m s) weekday h m s Hw Hv)
    as (Hdu & Hmod' & _ & Hzero).
  rewrite (clock_time_day day h m s Hv) in *.
  rewrite (clock_time_second day h m s Hv) in Hzero.
  set (du := daysUntil_of (TimeBreakdown (clock_time day h m s))
               weekday h m s) in *.
  assert (Hdu7 : du = 7).
  { pose proof (Z.div_mod (day + 4) 7 ltac:(lia)) as H1.
    pose proof (Z.div_mod (day + du + 4) 7 ltac:(lia)) as H2.
    rewrite Hmod in H1. rewrite Hmod' in H2.
    destruct (Z.eq_dec du 0) as [H0 | Hn0]; [specialize (Hzero H0); lia | lia]. }
  rewrite Hdu7. unfold clock_time. lia.
Qed.

End LocalTime.

(* ------------------------------------------------------------------------- *)
(** ** Worked instances

    The zone is UTC and the event map has no descriptions.  Timestamps:
    1793358000 is Friday 2026-10-30 11:00:00, 1793588400 is Monday
    2026-11-02 03:00:00. *)

Example TimeBreakdown_friday :
  TimeBreakdown UTC 1793358000 = mk_tm 0 0 11 30 9 126 5.
Proof. vm_compute. reflexivity. Qed.

Example weekly_monday_still_ahead :
  GetNextWeekdayTime UTC 1793588400 1 4 0 0 = 1793588400 + 3600.
Proof. vm_compute. reflexivity. Qed.

Example weekly_monday_already_passed :
  GetNextWeekdayTime UTC (1793588400 + 7200) 1 4 0 0
  = 1793588400 + 3600 + 7 * 86400.
Proof. vm_compute. reflexivity. Qed.

Example daily_four_o_clock :
  Init UTC no_description
       (mk_Config true "04:00:00" (-1) 1 3600 "restart" "")
       (1793588400 - 10800) armed_world
  = Some (mk_World true SHUTDOWN_MASK_RESTART [mk_Task 10800 3600] None []
            [(LOG_INFO, BlankLine); (LOG_INFO, SystemLoading);
             (LOG_INFO, NextTimeToShutdown (1793588400 + 3600));
             (LOG_INFO, RemainingTimeToShutdown 14400);
             (LOG_INFO, BlankLine);
             (LOG_INFO, NextTimeToPreAnnounce 1793588400);
             (LOG_INFO, RemainingTimeToPreAnnounce 10800);
             (LOG_INFO, BlankLine)]).
Proof. vm_compute. reflexivity. Qed.

Example non_numeric_event_token :
  StartPersistentGameEvents no_description
    (mk_Config true "04:00:00" (-1) 1 3600 "restart" "1 x") armed_world
  = None.
Proof. vm_compute. reflexivity. Qed.

Lemma numeric_tokens_1_2 : numeric_tokens (Tokenize "1 2" " "%char false).
Proof.
  intros token Hin _. vm_compute in Hin.
  destruct Hin as [<- | [<- | []]]; eexists; vm_compute; reflexivity.
Qed.

(** C1, at the failing input.  With [Time = "25:00:00"] the hour check
    clears the enable flag, yet [Init] cancels the pending task and the
    host's shutdown countdown, starts the configured events and schedules
    a new pre-announce task. *)
Theorem Init_invalid_hour_still_schedules :
  Init UTC no_description
       (mk_Config true "25:00:00" (-1) 1 3600 "restart" "1 2")
       1793358000 armed_world
  = Some (mk_World false SHUTDOWN_MASK_RESTART [mk_Task 46800 3600] None
            [1; 2]
            [(LOG_ERROR, IncorrectHour "25:00:00");
             (LOG_INFO, BlankLine); (LOG_INFO, SystemLoading);
             (LOG_INFO, NextTimeToShutdown 1793408400);
             (LOG_INFO, RemainingTimeToShutdown 50400);
             (LOG_INFO, BlankLine);
             (LOG_INFO, NextTimeToPreAnnounce 1793404800);
             (LOG_INFO, RemainingTimeToPreAnnounce 46800);
             (LOG_INFO, BlankLine);
             (LOG_INFO, StartingEvent EmptyString 1);
             (LOG_INFO, StartingEvent EmptyString 2)]).
Proof. vm_compute. reflexivity. Qed.

(** The same defect in weekly mode with [EveryDays = 0]. *)
Example Init_weekly_invalid_days_still_schedules :
  exists w',
    Init UTC no_description
         (mk_Config true "04:00:00" 1 0 3600 "restart" "1 2")
         1793358000 armed_world = Some w' /\
    isEnableModule w' = false /\
    scheduler w' = [mk_Task 230400 3600] /\
    worldShutdownTimer w' = None /\
    startedEvents w' = [1; 2].
Proof. eexists. split; [vm_compute; reflexivity | repeat split]. Qed.

(** The early exits, by contrast, leave the world alone. *)
Example Init_malformed_time_inert :
  Init UTC no_description
       (mk_Config true "04:00" (-1) 1 3600 "restart" "1 2")
       1793358000 armed_world
  = Some (mk_World false SHUTDOWN_MASK_RESTART [mk_Task 500 3600] (Some 120)
            [] [(LOG_ERROR, IncorrectTime "04:00")]).
Proof. vm_compute. reflexivity. Qed.

Lemma GetNextWeekdayTime_same_weekday_witness :
  5 = tm_wday (TimeBreakdown UTC 1793358000) /\
  daysUntil_of (TimeBreakdown UTC 1793358000) 5 11 0 0 = 7.
Proof.
  assert (H : 5 = tm_wday (TimeBreakdown UTC 1793358000))
    by (vm_compute; reflexivity).
  split; [exact H|].
  apply (proj1 (proj2 (proj2
           (GetNextWeekdayTime_same_weekday UTC 1793358000 5 11 0 0 H)))).
  vm_compute. reflexivity.
Defined.

Lemma Init_short_runway_witness :
  exists w',
    Init UTC no_description
         (mk_Config true "11:30:00" (-1) 1 3600 "restart" "1 2")
         1793358000 armed_world = Some w' /\
    scheduler w' = [mk_Task 1 1800].
Proof.
  apply (Init_short_runway UTC no_description
           (mk_Config true "11:30:00" (-1) 1 3600 "restart" "1 2")
           1793358000 11 30 0
           (mk_ShutdownPlan 1793359800 1800 1793358001 1 1800) armed_world).
  - reflexivity.
  - vm_compute. reflexivity.
  - exact numeric_tokens_1_2.
  - vm_compute. reflexivity.
  - vm_compute. reflexivity.
Defined.

Lemma Init_plan_next_period_witness :
  exists plan,
    Init_plan UTC (mk_Config true "11:00:05" 5 1 3600 "restart" "")
              1793358000 11 0 5 = Some plan /\
    nextResetTime plan = 1793358005 + 7 * 86400 /\
    diffToShutdown plan = 5 + 7 * 86400.
Proof.
  destruct (Init_plan_next_period UTC
              (mk_Config true "11:00:05" 5 1 3600 "restart" "")
              1793358000 11 0 5)
    as (plan & Hplan & _ & Hnext & Hdiff).
  - left. reflexivity.
  - vm_compute. split; [discriminate | reflexivity].
  - exists plan. split; [exact Hplan|]. split.
    + apply Hnext; [lia | vm_compute; reflexivity].
    + exact Hdiff.
Defined.

(** The same in periodic mode: five seconds before a daily 11:00:00 the
    plan moves to the next day's occurrence. *)
Example Init_plan_next_period_daily :
  Init_plan UTC (mk_Config true "11:00:00" (-1) 1 3600 "restart" "")
            (1793358000 - 5) 11 0 0
  = Some (mk_ShutdownPlan (1793358000 + 86400) (5 + 86400)
            (1793358000 + 86400 - 3600) (5 + 86400 - 3600) 3600).
Proof. vm_compute. reflexivity. Qed.

(* ------------------------------------------------------------------------- *)
(** ** Zones whose offset changes

    [offset_at] gives the offset in force at each timestamp.  The
    calculator runs with the offset in force at now; its result [r] is
    read back as [TimeBreakdown (offset_at r) r]. *)








Lemma Init_preAnnounce_clamped_witness :
  exists w',
    Init UTC no_description
         (mk_Config true "04:00:00" (-1) 1 90000 "restart" "1 2")
         1793358000 armed_world = Some w' /\
    isEnableModule w' = true /\
    scheduler w' = [mk_Task 57600 3600].
Proof.
  destruct (Init_preAnnounce_clamped UTC no_description
              (mk_Config true "04:00:00" (-1) 1 90000 "restart" "1 2")
              1793358000 4 0 0 armed_world)
    as (_ & n & w' & Hfirst & _ & Hinit & Hen & Hsched & _).
  - reflexivity.
  - vm_compute. reflexivity.
  - unfold in_range. cbn. lia.
  - exact numeric_tokens_1_2.
  - vm_compute. reflexivity.
  - exists w'. split; [exact Hinit|]. split; [exact Hen|].
    vm_compute in Hfirst. injection Hfirst as <-. exact Hsched.
Defined.

Lemma Init_plan_preAnnounce_le_witness :
  Init_plan UTC (mk_Config true "11:30:00" (-1) 1 3600 "restart" "")
            1793358000 11 30 0
  = Some (mk_ShutdownPlan 1793359800 1800 1793358001 1 1800) /\
  1800 <= 1800.
Proof.
  assert (H : Init_plan UTC (mk_Config true "11:30:00" (-1) 1 3600 "restart" "")
                1793358000 11 30 0
              = Some (mk_ShutdownPlan 1793359800 1800 1793358001 1 1800))
    by (vm_compute; reflexivity).
  split; [exact H|].
  exact (Init_plan_preAnnounce_le UTC _ _ _ _ _ _ H).
Defined.

Lemma StartPersistentGameEvents_total_witness :
  exists w',
    StartPersistentGameEvents no_description
      (mk_Config true "04:00:00" (-1) 1 3600 "restart" "1 2") armed_world
    = Some w'.
Proof.
  apply (proj1 (StartPersistentGameEvents_total_iff no_description
                  (mk_Config true "04:00:00" (-1) 1 3600 "restart" "1 2")
                  armed_world)).
  exact numeric_tokens_1_2.
Defined.

(* ------------------------------------------------------------------------- *)
(** ** Worked instances of the further properties

    1793592000 is Monday 2026-11-02 04:00:00. *)

Lemma not_numeric_tokens_1_x :
  ~ numeric_tokens (Tokenize "1 x" " "%char false).
Proof.
  intros H. destruct (H "x"%string) as [eventId Hid].
  - vm_compute. right. left. reflexivity.
  - reflexivity.
  - vm_compute in Hid. discriminate.
Qed.

Lemma Init_disabled_inert_witness :
  exists w',
    Init UTC no_description
         (mk_Config false "04:00:00" (-1) 1 3600 "restart" "1 2")
         1793358000 armed_world = Some w' /\
    scheduler w' = [mk_Task 500 3600] /\
    worldShutdownTimer w' = Some 120.
Proof.
  destruct (Init_disabled_inert UTC no_description (fun _ w => w)
              (mk_Config false "04:00:00" (-1) 1 3600 "restart" "1 2")
              1793358000 armed_world eq_refl)
    as (w' & Hrun & _ & _ & Hs & Ht & _).
  exists w'. split; [exact Hrun|]. split; [exact Hs | exact Ht].
Defined.

Lemma Init_malformed_time_inert_exit_witness :
  exists w',
    Init UTC no_description
         (mk_Config true "04:00" (-1) 1 3600 "restart" "1 2")
         1793358000 armed_world = Some w' /\
    isEnableModule w' = false /\
    scheduler w' = [mk_Task 500 3600].
Proof.
  destruct (Init_malformed_time_inert_exit UTC no_description
              (mk_Config true "04:00" (-1) 1 3600 "restart" "1 2")
              1793358000 armed_world)
    as (w' & Hrun & He & _ & Hs & _).
  - reflexivity.
  - vm_compute. reflexivity.
  - exists w'. split; [exact Hrun|]. split; [exact He | exact Hs].
Defined.

Lemma Init_periodic_days_inert_exit_witness :
  exists w',
    Init UTC no_description
         (mk_Config true "04:00:00" (-1) 366 3600 "restart" "1 2")
         1793358000 armed_world = Some w' /\
    isEnableModule w' = false /\
    scheduler w' = [mk_Task 500 3600].
Proof.
  destruct (Init_periodic_days_inert_exit UTC no_description
              (mk_Config true "04:00:00" (-1) 366 3600 "restart" "1 2")
              1793358000 4 0 0 armed_world)
    as (w' & Hrun & He & _ & Hs & _).
  - reflexivity.
  - vm_compute. reflexivity.
  - vm_compute. reflexivity.
  - cbn. lia.
  - exists w'. split; [exact Hrun|]. split; [exact He | exact Hs].
Defined.

Lemma Init_enabled_iff_witness :
  Init UTC no_description
       (mk_Config true "04:00:00" (-1) 1 3600 "restart" "")
       (1793588400 - 10800) armed_world
  = Some (mk_World true SHUTDOWN_MASK_RESTART [mk_Task 10800 3600] None []
            [(LOG_INFO, BlankLine); (LOG_INFO, SystemLoading);
             (LOG_INFO, NextTimeToShutdown (1793588400 + 3600));
             (LOG_INFO, RemainingTimeToShutdown 14400);
             (LOG_INFO, BlankLine);
             (LOG_INFO, NextTimeToPreAnnounce 1793588400);
             (LOG_INFO, RemainingTimeToPreAnnounce 10800);
             (LOG_INFO, BlankLine)]) /\
  exists h m s,
    config_clock (mk_Config true "04:00:00" (-1) 1 3600 "restart" "")
    = Some (h, m, s) /\ in_range 1 h m s.
Proof.
  assert (Hrun :
    Init UTC no_description
         (mk_Config true "04:00:00" (-1) 1 3600 "restart" "")
         (1793588400 - 10800) armed_world
    = Some (mk_World true SHUTDOWN_MASK_RESTART [mk_Task 10800 3600] None []
              [(LOG_INFO, BlankLine); (LOG_INFO, SystemLoading);
               (LOG_INFO, NextTimeToShutdown (1793588400 + 3600));
               (LOG_INFO, RemainingTimeToShutdown 14400);
               (LOG_INFO, BlankLine);
               (LOG_INFO, NextTimeToPreAnnounce 1793588400);
               (LOG_INFO, RemainingTimeToPreAnnounce 10800);
               (LOG_INFO, BlankLine)])) by (vm_compute; reflexivity).
  split; [exact Hrun|].
  apply (proj2 (proj1 (Init_enabled_iff UTC no_description _ _ _ _ Hrun)
                 eq_refl)).
Defined.

Lemma Init_undefined_iff_witness :
  Init UTC no_description
       (mk_Config true "04:00:00" (-1) 1 3600 "restart" "1 x")
       1793358000 armed_world = None.
Proof.
  apply (proj2 (Init_undefined_iff UTC no_description
                  (mk_Config true "04:00:00" (-1) 1 3600 "restart" "1 x")
                  1793358000 armed_world)).
  split; [reflexivity|]. split.
  - exists 4, 0, 0, 1793419200. split; vm_compute; reflexivity.
  - exact not_numeric_tokens_1_x.
Defined.

Lemma Init_replaces_pending_witness :
  exists w',
    Init UTC no_description
         (mk_Config true "04:00:00" (-1) 1 3600 "restart" "1 2")
         1793358000 armed_world = Some w' /\
    scheduler w' = [mk_Task 57600 3600] /\
    worldShutdownTimer w' = None /\
    startedEvents w' = [1; 2].
Proof.
  apply (Init_replaces_pending UTC no_description
           (mk_Config true "04:00:00" (-1) 1 3600 "restart" "1 2")
           1793358000 4 0 0
           (mk_ShutdownPlan 1793419200 61200 1793415600 57600 3600)
           armed_world).
  - reflexivity.
  - vm_compute. reflexivity.
  - exact numeric_tokens_1_2.
  - vm_compute. reflexivity.
Defined.

Lemma Init_shutdownMask_witness :
  exists w',
    Init UTC no_description
         (mk_Config true "04:00:00" (-1) 1 3600 "Shutdown" "")
         (1793588400 - 10800) armed_world = Some w' /\
    shutdownMask w' = SHUTDOWN_MASK_RESTART.
Proof.
  eexists. split; [vm_compute; reflexivity|].
  apply (Init_shutdownMask UTC no_description
           (mk_Config true "04:00:00" (-1) 1 3600 "Shutdown" "")
           (1793588400 - 10800) 4 0 0 1793592000 armed_world).
  - reflexivity.
  - vm_compute. reflexivity.
  - vm_compute. reflexivity.
  - vm_compute. reflexivity.
  - cbn. discriminate.
Defined.

Lemma Init_plan_occurrence_witness :
  exists occurrence,
    to_u64 1793962805 = to_u64 occurrence /\
    tm_clock (TimeBreakdown UTC occurrence) = (11, 0, 5) /\
    604805 = occurrence - 1793358000.
Proof.
  destruct (Init_plan_occurrence UTC
              (mk_Config true "11:00:05" 5 1 3600 "restart" "")
              1793358000 11 0 5
              (mk_ShutdownPlan 1793962805 604805 1793959205 601205 3600))
    as (occ & Hn & Hc & _ & Hd & _).
  - unfold valid_clock. lia.
  - vm_compute. reflexivity.
  - exists occ. split; [exact Hn|]. split; [exact Hc | exact Hd].
Defined.

Lemma build_plan_countdown_witness :
  0 <= 3600 /\
  diffToPreAnnounce (build_plan 1793358000 (-1) 1 1793419200 3600)
  + preAnnounceSeconds (build_plan 1793358000 (-1) 1 1793419200 3600)
  = diffToShutdown (build_plan 1793358000 (-1) 1 1793419200 3600)
    + (if diffToShutdown (build_plan 1793358000 (-1) 1 1793419200 3600)
          <? clamp_preAnnounce 3600
       then 1 else 0).
Proof.
  assert (H : 0 <= 3600) by lia.
  split; [exact H|].
  exact (proj1 (build_plan_countdown 1793358000 (-1) 1 1793419200 3600 H)).
Defined.

Lemma GetNextResetTime_daily_is_next_witness :
  valid_clock 4 0 0 /\
  1793358000 < GetNextResetTime UTC 1793358000 1 4 0 0.
Proof.
  assert (H : valid_clock 4 0 0) by (unfold valid_clock; lia).
  split; [exact H|].
  exact (proj1 (GetNextResetTime_daily_is_next UTC 1793358000 4 0 0 H)).
Defined.

Lemma GetNextResetTime_period_distance_witness :
  valid_clock 12 0 0 /\ 1 < 2 /\ DAY * 2 < 2 ^ 32 /\
  1793358000 + (2 - 1) * 86400 < GetNextResetTime UTC 1793358000 2 12 0 0.
Proof.
  assert (Hv : valid_clock 12 0 0) by (unfold valid_clock; lia).
  assert (Hd : 1 < 2) by lia.
  assert (Hf : DAY * 2 < 2 ^ 32) by (vm_compute; reflexivity).
  repeat (split; [assumption|]).
  exact (proj1 (GetNextResetTime_period_distance UTC 1793358000 2 12 0 0
                  Hv Hd Hf)).
Defined.

Lemma GetNextWeekdayTime_on_weekday_witness :
  0 <= 1 <= 6 /\ valid_clock 4 0 0 /\
  tm_wday (TimeBreakdown UTC (GetNextWeekdayTime UTC 1793358000 1 4 0 0)) = 1.
Proof.
  assert (Hw : 0 <= 1 <= 6) by lia.
  assert (Hv : valid_clock 4 0 0) by (unfold valid_clock; lia).
  repeat (split; [assumption|]).
  exact (proj1 (GetNextWeekdayTime_on_weekday UTC 1793358000 1 4 0 0 Hw Hv)).
Defined.

Lemma GetNextWeekdayTime_is_next_witness :
  GetNextWeekdayTime UTC 1793358000 1 4 0 0 <= 1793592000 + 7 * 86400.
Proof.
  apply (GetNextWeekdayTime_is_next UTC 1793358000 1 4 0 0
           (1793592000 + 7 * 86400)).
  - lia.
  - lia.
  - vm_compute. reflexivity.
  - vm_compute. reflexivity.
Defined.

Lemma StartPersistentGameEvents_effect_witness :
  exists w',
    StartPersistentGameEvents no_description
      (mk_Config true "04:00:00" (-1) 1 3600 "restart" "1 2") armed_world
    = Some w' /\
    startedEvents w' = [1; 2] /\ scheduler w' = [mk_Task 500 3600].
Proof.
  eexists. split.
  - apply (proj1 (StartPersistentGameEvents_effect no_description
                    (mk_Config true "04:00:00" (-1) 1 3600 "restart" "1 2")
                    armed_world numeric_tokens_1_2)).
  - split; vm_compute; reflexivity.
Defined.

Lemma StartPersistentGameEvents_blank_witness :
  StartPersistentGameEvents no_description
    (mk_Config true "04:00:00" (-1) 1 3600 "restart" "   ") armed_world
  = Some armed_world.
Proof.
  apply (StartPersistentGameEvents_blank no_description
           (mk_Config true "04:00:00" (-1) 1 3600 "restart" "   ")
           armed_world).
  vm_compute. reflexivity.
Defined.

Lemma GetNextResetTime_daily_iterate_witness :
  valid_clock 4 0 0 /\
  GetNextResetTime UTC (GetNextResetTime UTC 1793358000 1 4 0 0) 1 4 0 0
  = GetNextResetTime UTC 1793358000 1 4 0 0 + 86400.
Proof.
  assert (H : valid_clock 4 0 0) by (unfold valid_clock; lia).
  split; [exact H|].
  exact (GetNextResetTime_daily_iterate UTC 1793358000 4 0 0 H).
Defined.

Lemma GetNextWeekdayTime_iterate_witness :
  0 <= 1 <= 6 /\ valid_clock 4 0 0 /\
  GetNextWeekdayTime UTC (GetNextWeekdayTime UTC 1793358000 1 4 0 0) 1 4 0 0
  = GetNextWeekdayTime UTC 1793358000 1 4 0 0 + 7 * 86400.
Proof.
  assert (Hw : 0 <= 1 <= 6) by lia.
  assert (Hv : valid_clock 4 0 0) by (unfold valid_clock; lia).
  repeat (split; [assumption|]).
  exact (GetNextWeekdayTime_iterate UTC 1793358000 1 4 0 0 Hw Hv).
Defined.
